(** * dalbench dataset layer: [DataSlice], [Dataset], [DatasetFromCsv]

    A shallow embedding of [src/utils/dataset.cpp].  Unsigned [size_t]
    arithmetic is written out on [Z] with its wrap-around modulo [2^64];
    the single-precision computation of the block size uses the
    parameterised IEEE-754 operations of the standard library at the
    binary32 format; shared table handles are indices into an explicit
    heap; exceptions and undefined behaviour are explicit outcomes. *)

From Stdlib Require Import ZArith Lia Bool List.
From Stdlib Require Import Floats.SpecFloat.
From stdpp Require Import base tactics option list strings.

Local Open Scope Z_scope.

(** ** [size_t] *)

Definition SIZE_MODULUS : Z := 2 ^ 64.

(** The value an unsigned 64-bit computation keeps. *)
Definition to_size_t (z : Z) : Z := z mod SIZE_MODULUS.

(** ** Single precision: [std::ceil(float(num_rows) / num_blocks)] *)

Module Float32.

Definition prec : Z := 24.
Definition emax : Z := 128.

(** [float(n)] for an unsigned integer [n]: round to nearest even. *)
Definition of_size_t (n : Z) : spec_float := binary_normalize prec emax n 0 false.

Definition div (a b : spec_float) : spec_float := SFdiv prec emax a b.

(** [std::ceil] followed by the conversion of its result to [size_t].
    The ceiling of a binary32 value is itself a binary32 value, so the
    two steps amount to the integer ceiling; the conversion is
    undefined for NaN, infinities and values outside [0, 2^64). *)
Definition ceil_to_size_t (x : spec_float) : option Z :=
  match x with
  | S754_zero _ => Some 0
  | S754_finite false m e =>
      let v := if 0 <=? e then Z.pos m * 2 ^ e
               else (Z.pos m + 2 ^ (- e) - 1) / 2 ^ (- e) in
      if v <? SIZE_MODULUS then Some v else None
  | S754_finite true m e =>
      if (e <? 0) && (Z.pos m <? 2 ^ (- e)) then Some 0 else None
  | S754_infinity _ | S754_nan => None
  end.

End Float32.

(** ** Double precision values and the element types of a table *)

(** A value of a [double] buffer ([FPType = double] in [copy_block]). *)
Abbreviation double := spec_float (only parsing).

(** The conversion of a finite number to the binary64 format. *)
Definition to_binary64 (x : spec_float) : double :=
  match x with
  | S754_finite s m e => binary_round 53 1024 s m e
  | _ => x
  end.

(** Narrowing of a double to binary32, round to nearest even, read as a
    double again. *)
Definition to_float32 (d : double) : double :=
  match d with
  | S754_finite s m e => to_binary64 (binary_round Float32.prec Float32.emax s m e)
  | _ => d
  end.

(** Modelled from the spec: the kind of a table names a backend and an
    element precision, single or double ([dataset.hpp], which declares
    the enumeration, is not among the sources).  [OtherNumericTable]
    stands for every enumerator that the switch of
    [create_numeric_table] sends to its [default]. *)
Inductive NumericTableType : Type :=
  | SyclHomogenNumericTableFloat
  | SyclHomogenNumericTableDouble
  | OtherNumericTable.

(** [NumericTable::AllocationFlag]. *)
Inductive AllocationFlag : Type := notAllocate | doAllocate.

(** Modelled from the spec: the kind of a table fixes its element
    precision.  What a table of type [ty] keeps of a double written into
    it through a block of doubles: the double itself, or its narrowing
    to binary32 for the single-precision kind. *)
Definition store_as (ty : NumericTableType) (d : double) : double :=
  match ty with
  | SyclHomogenNumericTableFloat => to_float32 d
  | _ => d
  end.

(** Modelled from the spec: a numeric table is a two-dimensional numeric
    buffer with row and column counts and scoped access to contiguous
    ranges of rows.  [nt_data] is the table as a block of all its rows
    acquired as [double] shows it: row-major, [nt_rows * nt_cols]
    values. *)
Record NumericTable : Type := mkNumericTable {
  nt_type : NumericTableType;
  nt_cols : Z;
  nt_rows : Z;
  nt_data : list double
}.

(** Element [(row, col)] of the row-major buffer. *)
Definition nt_at (t : NumericTable) (row col : Z) : option double :=
  nt_data t !! Z.to_nat (row * nt_cols t + col).

(** A table that can sit in memory: its counts and its number of
    elements fit [size_t], and its values are values of its element
    type. *)
Record nt_wf (t : NumericTable) : Prop := mk_nt_wf {
  wf_cols : 0 <= nt_cols t < SIZE_MODULUS;
  wf_rows : 0 <= nt_rows t < SIZE_MODULUS;
  wf_size : nt_rows t * nt_cols t < SIZE_MODULUS;
  wf_len : Z.of_nat (length (nt_data t)) = nt_rows t * nt_cols t;
  wf_stored : Forall (fun d => store_as (nt_type t) d = d) (nt_data t)
}.

(** ** Handles, heap, outcomes *)

(** A table handle is an index into the heap. *)
Abbreviation handle := nat (only parsing).

(** [NumericTablePtr]: a shared pointer, [None] when null. *)
Abbreviation NumericTablePtr := (option nat) (only parsing).

(** The result of [MergedNumericTable::create(first, second)]: a view of
    the two tables side by side, the columns of [first] followed by those
    of [second]. *)
Record MergedNumericTable : Type := mkMerged {
  merged_first : handle;
  merged_second : handle
}.

Inductive exn : Type :=
  | NotAvailableNumericTable (msg : string)
  | EmptyNumericTable (msg : string)
  | CannotOpenFile (msg : string)
  | CannotReadCsv (msg : string)
  | CannotLoadDataset (msg : string).

(** How a call ends: it returns, it throws, or its behaviour is undefined
    (a null handle dereferenced, a vector or buffer indexed out of range,
    a floating-point value out of range converted to an integer). *)
Inductive outcome (A : Type) : Type :=
  | Ok (a : A)
  | Throw (e : exn)
  | Undefined.
Arguments Ok {A} a.
Arguments Throw {A} e.
Arguments Undefined {A}.

(** Modelled from the spec: the collaborators the layer calls (the table
    backend, the file system, the CSV data source) and what it did to
    them.  Tables are shared by handle and never moved; a table no
    handle refers to any more is of no concern here and stays in the
    heap. *)
Record world : Type := mkWorld {
  (** the tables allocated so far *)
  heap : list NumericTable;
  (** whether the backend yields a table (a non-null handle) for a type,
      a number of columns, a number of rows and an allocation flag *)
  allocates : NumericTableType -> Z -> Z -> AllocationFlag -> bool;
  (** [can_open_file(path)] *)
  can_open_file : string -> bool;
  (** [FileDataSource<CSVFeatureManager>(path).loadDataBlock(table)]: the
      tables of the target (one, or the parts of a merged table) after
      the load, and the status *)
  loadDataBlock : string -> list NumericTable -> list NumericTable * bool;
  (** the files loaded so far, latest first *)
  csv_loaded : list string
}.

Definition with_heap (w : world) (h : list NumericTable) : world :=
  mkWorld h (allocates w) (can_open_file w) (loadDataBlock w) (csv_loaded w).

Definition with_csv_loaded (w : world) (l : list string) : world :=
  mkWorld (heap w) (allocates w) (can_open_file w) (loadDataBlock w) l.

(** Computations over the world. *)
Definition M (A : Type) : Type := world -> world * outcome A.

Definition ret {A} (a : A) : M A := fun w => (w, Ok a).
Definition throw {A} (e : exn) : M A := fun w => (w, Throw e).
Definition undefined {A} : M A := fun w => (w, Undefined).

Definition bind {A B} (m : M A) (k : A -> M B) : M B :=
  fun w =>
    match m w with
    | (w', Ok a) => k a w'
    | (w', Throw e) => (w', Throw e)
    | (w', Undefined) => (w', Undefined)
    end.

Notation "x <~ m ;; k" := (bind m (fun x => k))
  (at level 100, m at next level, right associativity).

(** Lifting of a computation that does not touch the world. *)
Definition lift {A} (o : outcome A) : M A := fun w => (w, o).

(** [*p] for a table handle. *)
Definition deref (p : NumericTablePtr) : M NumericTable :=
  fun w =>
    match p with
    | Some h =>
        match heap w !! h with
        | Some t => (w, Ok t)
        | None => (w, Undefined)
        end
    | None => (w, Undefined)
    end.

(** [v[i]] on a [std::vector]: unchecked. *)
Definition vec_at {A} (v : list A) (i : Z) : outcome A :=
  match v !! Z.to_nat i with
  | Some a => Ok a
  | None => Undefined
  end.

(** [v.empty()] *)
Definition vec_empty {A} (v : list A) : bool :=
  match v with [] => true | _ => false end.

(** [v.back()]: undefined on an empty vector. *)
Definition vec_back {A} (v : list A) : outcome A :=
  match last v with
  | Some a => Ok a
  | None => Undefined
  end.

(** Sequencing of calls that do not touch the world. *)
Definition and_then {A B} (o : outcome A) (k : A -> outcome B) : outcome B :=
  match o with
  | Ok a => k a
  | Throw e => Throw e
  | Undefined => Undefined
  end.

(** [v[i] = a] on a [std::vector]: unchecked. *)
Definition vec_set {A} (v : list A) (i : Z) (a : A) : outcome (list A) :=
  if decide (Z.to_nat i < length v)%nat then Ok (<[Z.to_nat i := a]> v) else Undefined.

(** ** [NumericTableFactory] *)

Definition zero : double := S754_zero false.

(** The storage of a new table: [num_observations * num_features]
    elements when it is allocated (their initial values are not
    specified; [copy_block] overwrites them), none otherwise. *)
Definition allocated_data (num_features num_observations : Z)
    (memory_allocation_flag : AllocationFlag) : list double :=
  match memory_allocation_flag with
  | doAllocate => replicate (Z.to_nat (num_observations * num_features)) zero
  | notAllocate => []
  end.

Definition create_numeric_table
    (numeric_table_type : NumericTableType)
    (num_features num_observations : Z)
    (memory_allocation_flag : AllocationFlag) : M NumericTablePtr :=
  fun w =>
    match numeric_table_type with
    | SyclHomogenNumericTableFloat | SyclHomogenNumericTableDouble =>
        if allocates w numeric_table_type num_features num_observations
             memory_allocation_flag
        then
          let t := mkNumericTable numeric_table_type num_features num_observations
                     (allocated_data num_features num_observations
                        memory_allocation_flag) in
          (with_heap w (heap w ++ [t]), Ok (Some (length (heap w))))
        else (w, Throw (EmptyNumericTable "The numeric table is empty"))
    | OtherNumericTable =>
        (w, Throw (NotAvailableNumericTable
                     "The given numeric table type is not implemented"))
    end.

(** ** Blocks of rows *)

(** [std::copy(src + first, src + first + n, dst)]: undefined when the
    source range or the destination range leaves its buffer. *)
Definition std_copy (src : list double) (first n : Z) (dst : list double)
    : outcome (list double) :=
  if decide (first + n <= Z.of_nat (length src) /\ n <= Z.of_nat (length dst))
  then Ok (take (Z.to_nat n) (drop (Z.to_nat first) src) ++ drop (Z.to_nat n) dst)
  else Undefined.

(** [releaseBlockOfRows] of a block acquired for writing: the buffer goes
    back into the table, each double converted to the element type. *)
Definition releaseBlockOfRows (p : NumericTablePtr) (buffer : list double) : M unit :=
  fun w =>
    match p with
    | Some h =>
        match heap w !! h with
        | Some t =>
            let t' := mkNumericTable (nt_type t) (nt_cols t) (nt_rows t)
                        (map (store_as (nt_type t)) buffer) in
            (with_heap w (<[h := t']> (heap w)), Ok tt)
        | None => (w, Undefined)
        end
    | None => (w, Undefined)
    end.

Module DataSlice.

Record t : Type := mk {
  x_blocks_ : list NumericTablePtr;
  y_blocks_ : list NumericTablePtr;
  labeled_ : bool
}.

Definition copy_block (numeric_table : NumericTablePtr)
    (numeric_table_type : NumericTableType)
    (block_index block_size : Z) : M NumericTablePtr :=
  src <~ deref numeric_table ;;
  let num_cols := nt_cols src in
  let num_rows := nt_rows src in
  let start_row := to_size_t (block_index * block_size) in
  let end_row := to_size_t (start_row + block_size) in
  let end_row := if num_rows <? end_row then num_rows else end_row in
  (* bd_r: the whole source, read as double *)
  let ptr_r := nt_data src in
  numeric_table_tmp <~ create_numeric_table numeric_table_type num_cols
                         (to_size_t (end_row - start_row)) doAllocate ;;
  (* bd_w: the whole new table, to be written as double *)
  tmp <~ deref numeric_table_tmp ;;
  let ptr_w := nt_data tmp in
  let num_elems := to_size_t (num_cols * to_size_t (end_row - start_row)) in
  let offset := to_size_t (start_row * num_cols) in
  written <~ lift (std_copy ptr_r offset num_elems ptr_w) ;;
  _ <~ releaseBlockOfRows numeric_table_tmp written ;;
  ret numeric_table_tmp.

Definition set_block (block_index block_size : Z) (x y : NumericTablePtr)
    (numeric_table_type : NumericTableType) (this : t) : M t :=
  xb <~ copy_block x numeric_table_type block_index block_size ;;
  xs <~ lift (vec_set (x_blocks_ this) block_index xb) ;;
  match y with
  | Some _ =>
      yb <~ copy_block y numeric_table_type block_index block_size ;;
      ys <~ lift (vec_set (y_blocks_ this) block_index yb) ;;
      ret (mk xs ys (labeled_ this))
  | None => ret (mk xs (y_blocks_ this) (labeled_ this))
  end.

(** [for (block_index = first; ...; ++block_index)] with [n] iterations
    left. *)
Fixpoint for_blocks (n : nat) (block_index : Z) (body : Z -> t -> M t)
    (this : t) : M t :=
  match n with
  | O => ret this
  | S n' =>
      this' <~ body block_index this ;;
      for_blocks n' (block_index + 1) body this'
  end.

(** [std::ceil(float(num_rows) / num_blocks)] converted to [size_t]. *)
Definition block_size_of (num_rows num_blocks : Z) : outcome Z :=
  match Float32.ceil_to_size_t
          (Float32.div (Float32.of_size_t num_rows) (Float32.of_size_t num_blocks)) with
  | Some b => Ok b
  | None => Undefined
  end.

Definition initialize (numeric_table_type : NumericTableType) (num_blocks : Z)
    (x y : NumericTablePtr) (this : t) : M t :=
  if num_blocks =? 1 then
    xs <~ lift (vec_set (x_blocks_ this) 0 x) ;;
    match y with
    | Some _ =>
        ys <~ lift (vec_set (y_blocks_ this) 0 y) ;;
        ret (mk xs ys (labeled_ this))
    | None => ret (mk xs (y_blocks_ this) (labeled_ this))
    end
  else
    tx <~ deref x ;;
    let num_rows := nt_rows tx in
    block_size <~ lift (block_size_of num_rows num_blocks) ;;
    for_blocks (Z.to_nat num_blocks) 0
      (fun block_index => set_block block_index block_size x y numeric_table_type)
      this.

(** [DataSlice(x, num_blocks, numeric_table_type)]; [initialize] gets a
    null [y]. *)
Definition make_x (x : NumericTablePtr) (num_blocks : Z)
    (numeric_table_type : NumericTableType) : M t :=
  initialize numeric_table_type num_blocks x None
    (mk (replicate (Z.to_nat num_blocks) None) [] false).

(** [DataSlice(x, y, num_blocks, numeric_table_type)]. *)
Definition make_xy (x y : NumericTablePtr) (num_blocks : Z)
    (numeric_table_type : NumericTableType) : M t :=
  initialize numeric_table_type num_blocks x y
    (mk (replicate (Z.to_nat num_blocks) None)
        (replicate (Z.to_nat num_blocks) None) true).

(** [DataSlice()]: no blocks; the default of [labeled_] is the
    header's and is left open. *)
Definition make_empty (labeled_default : bool) : t := mk [] [] labeled_default.

Definition clear (this : t) : t :=
  mk (map (fun _ => None) (x_blocks_ this))
     (map (fun _ => None) (y_blocks_ this))
     (labeled_ this).

(** [!p.get()] *)
Definition is_null (p : NumericTablePtr) : bool :=
  match p with None => true | Some _ => false end.

Definition x (this : t) : outcome NumericTablePtr :=
  if vec_empty (x_blocks_ this) then
    Throw (EmptyNumericTable "Dataset does not contain X slice")
  else vec_back (x_blocks_ this).

Definition y (this : t) : outcome NumericTablePtr :=
  if vec_empty (y_blocks_ this) then
    Throw (EmptyNumericTable "Dataset does not contain Y slice")
  else vec_back (y_blocks_ this).

Definition x_block (this : t) (block_index : Z) : outcome NumericTablePtr :=
  if vec_empty (x_blocks_ this) then
    Throw (EmptyNumericTable "Dataset does not contain X slice")
  else
    and_then (vec_at (x_blocks_ this) block_index) (fun p =>
      if is_null p then Throw (EmptyNumericTable "Dataset does not contain X slice")
      else Ok p).

Definition y_block (this : t) (block_index : Z) : outcome NumericTablePtr :=
  if vec_empty (y_blocks_ this) then
    Throw (EmptyNumericTable "Dataset does not contain Y slice")
  else
    and_then (vec_at (y_blocks_ this) block_index) (fun p =>
      if is_null p then Throw (EmptyNumericTable "Dataset does not contain Y slice")
      else Ok p).

(** [MergedNumericTable::create(first, second)].  What the library does
    with a null argument is not fixed by these sources. *)
Definition merged_create (first second : NumericTablePtr)
    : outcome MergedNumericTable :=
  match first, second with
  | Some a, Some b => Ok (mkMerged a b)
  | _, _ => Undefined
  end.

Definition xy (this : t) : outcome MergedNumericTable :=
  if vec_empty (x_blocks_ this) || vec_empty (y_blocks_ this) then
    Throw (EmptyNumericTable "Dataset does not contain either X or Y slices")
  else
    and_then (vec_back (x_blocks_ this)) (fun px =>
    and_then (vec_back (y_blocks_ this)) (fun py =>
    merged_create px py)).

Definition xy_blocks (this : t) (block_index : Z) : outcome MergedNumericTable :=
  and_then (vec_at (x_blocks_ this) block_index) (fun px =>
    if is_null px then
      Throw (EmptyNumericTable "Dataset does not contain either X or Y slices")
    else
      and_then (vec_at (y_blocks_ this) block_index) (fun py =>
        if is_null py then
          Throw (EmptyNumericTable "Dataset does not contain either X or Y slices")
        else merged_create px py)).

Definition empty (this : t) : bool :=
  if labeled_ this then vec_empty (x_blocks_ this) || vec_empty (y_blocks_ this)
  else vec_empty (x_blocks_ this).

End DataSlice.

(** What [dataset.hpp] and the utility headers declare and this file
    relies on: default member initialisers, default arguments and
    [join_sentences]. *)
Record declarations : Type := mkDeclarations {
  (** [labeled_] of a default-constructed [DataSlice] *)
  slice_labeled_default : bool;
  (** the defaults of [create_numeric_table]'s last two arguments *)
  default_num_observations : Z;
  default_allocation_flag : AllocationFlag;
  (** [join_sentences({...})] *)
  join_sentences : list string -> string
}.

Module Dataset.

Record t : Type := mk {
  train_slice_ : DataSlice.t;
  test_slice_ : DataSlice.t;
  full_slice_ : DataSlice.t;
  index_slice_ : DataSlice.t;
  num_features_ : Z;
  num_responses_ : Z;
  num_tries_ : Z
}.

(** [Dataset(train_slice, test_slice, full_slice, index_slice)]; the
    three counts start at zero. *)
Definition make (train_slice test_slice full_slice index_slice : DataSlice.t) : t :=
  mk train_slice test_slice full_slice index_slice 0 0 0.

(** [Dataset(train_slice, test_slice, full_slice)],
    [Dataset(train_slice, test_slice)] and [Dataset(full_slice)]: a
    slice that is not given is default-constructed. *)
Definition make_train_test_full (labeled_default : bool)
    (train_slice test_slice full_slice : DataSlice.t) : t :=
  mk train_slice test_slice full_slice (DataSlice.make_empty labeled_default) 0 0 0.

Definition make_train_test (labeled_default : bool)
    (train_slice test_slice : DataSlice.t) : t :=
  mk train_slice test_slice (DataSlice.make_empty labeled_default)
     (DataSlice.make_empty labeled_default) 0 0 0.

Definition make_full (labeled_default : bool) (full_slice : DataSlice.t) : t :=
  mk (DataSlice.make_empty labeled_default) (DataSlice.make_empty labeled_default)
     full_slice (DataSlice.make_empty labeled_default) 0 0 0.

Definition clear (this : t) : t :=
  mk (DataSlice.clear (train_slice_ this))
     (DataSlice.clear (test_slice_ this))
     (DataSlice.clear (full_slice_ this))
     (DataSlice.clear (index_slice_ this))
     (num_features_ this) (num_responses_ this) (num_tries_ this).

Definition full (this : t) : outcome DataSlice.t :=
  if DataSlice.empty (full_slice_ this) then
    Throw (EmptyNumericTable "Full slice of the dataset is empty")
  else Ok (full_slice_ this).

Definition train (this : t) : outcome DataSlice.t :=
  if DataSlice.empty (train_slice_ this) then
    Throw (EmptyNumericTable "Train slice of the dataset is empty")
  else Ok (train_slice_ this).

Definition test (this : t) : outcome DataSlice.t :=
  if DataSlice.empty (test_slice_ this) then
    Throw (EmptyNumericTable "Test slice of the dataset is empty")
  else Ok (test_slice_ this).

Definition index (this : t) : outcome DataSlice.t :=
  if DataSlice.empty (index_slice_ this) then
    Throw (EmptyNumericTable "Index slice of the dataset is empty")
  else Ok (index_slice_ this).

Definition has_full (this : t) : bool := negb (DataSlice.empty (full_slice_ this)).
Definition has_train (this : t) : bool := negb (DataSlice.empty (train_slice_ this)).
Definition has_test (this : t) : bool := negb (DataSlice.empty (test_slice_ this)).

Definition full_or_train (this : t) : outcome DataSlice.t :=
  if has_full this then full this
  else if has_train this then train this
  else Throw (EmptyNumericTable "Full and Train slices of the dataset are empty").

Definition full_or_test (this : t) : outcome DataSlice.t :=
  if has_full this then full this
  else if has_test this then test this
  else Throw (EmptyNumericTable "Full and Test slices of the dataset are empty").

Definition set_num_responses (num_responses : Z) (this : t) : t :=
  mk (train_slice_ this) (test_slice_ this) (full_slice_ this) (index_slice_ this)
     (num_features_ this) num_responses (num_tries_ this).

Definition set_num_tries (num_tries : Z) (this : t) : t :=
  mk (train_slice_ this) (test_slice_ this) (full_slice_ this) (index_slice_ this)
     (num_features_ this) (num_responses_ this) num_tries.

Definition set_num_features (num_features : Z) (this : t) : t :=
  mk (train_slice_ this) (test_slice_ this) (full_slice_ this) (index_slice_ this)
     num_features (num_responses_ this) (num_tries_ this).

End Dataset.

(** ** [MomentsOnline] ([low_order_moments_online.cpp]) *)

Module MomentsOnline.

(** [set_input_block]: the table that is handed to
    [algorithm_->input.set(data, x_block)]. *)
Definition set_input_block (dataset : Dataset.t) (block_index : Z)
    : outcome NumericTablePtr :=
  and_then (Dataset.full dataset) (fun full => DataSlice.x_block full block_index).

End MomentsOnline.

Module DatasetFromCsv.

Record t : Type := mk {
  path_to_full_ : string;
  path_to_train_ : string;
  path_to_test_ : string;
  path_to_index_ : string;
  num_features_ : Z;
  num_responses_ : Z;
  num_blocks_ : Z;
  num_tries_ : Z;
  labeled_ : bool;
  on_error_message_ : string
}.

Definition path_to_full (value : string) (this : t) : t :=
  mk value (path_to_train_ this) (path_to_test_ this) (path_to_index_ this)
     (num_features_ this) (num_responses_ this) (num_blocks_ this) (num_tries_ this)
     (labeled_ this) (on_error_message_ this).

Definition path_to_train (value : string) (this : t) : t :=
  mk (path_to_full_ this) value (path_to_test_ this) (path_to_index_ this)
     (num_features_ this) (num_responses_ this) (num_blocks_ this) (num_tries_ this)
     (labeled_ this) (on_error_message_ this).

Definition path_to_test (value : string) (this : t) : t :=
  mk (path_to_full_ this) (path_to_train_ this) value (path_to_index_ this)
     (num_features_ this) (num_responses_ this) (num_blocks_ this) (num_tries_ this)
     (labeled_ this) (on_error_message_ this).

Definition path_to_index (value : string) (this : t) : t :=
  mk (path_to_full_ this) (path_to_train_ this) (path_to_test_ this) value
     (num_features_ this) (num_responses_ this) (num_blocks_ this) (num_tries_ this)
     (labeled_ this) (on_error_message_ this).

Definition num_features (num_features : Z) (this : t) : t :=
  mk (path_to_full_ this) (path_to_train_ this) (path_to_test_ this)
     (path_to_index_ this) num_features (num_responses_ this) (num_blocks_ this)
     (num_tries_ this) (labeled_ this) (on_error_message_ this).

Definition num_responses (num_responses : Z) (this : t) : t :=
  mk (path_to_full_ this) (path_to_train_ this) (path_to_test_ this)
     (path_to_index_ this) (num_features_ this) num_responses (num_blocks_ this)
     (num_tries_ this) (labeled_ this) (on_error_message_ this).

Definition num_blocks (num_blocks : Z) (this : t) : t :=
  mk (path_to_full_ this) (path_to_train_ this) (path_to_test_ this)
     (path_to_index_ this) (num_features_ this) (num_responses_ this) num_blocks
     (num_tries_ this) (labeled_ this) (on_error_message_ this).

Definition num_tries (num_tries : Z) (this : t) : t :=
  mk (path_to_full_ this) (path_to_train_ this) (path_to_test_ this)
     (path_to_index_ this) (num_features_ this) (num_responses_ this)
     (num_blocks_ this) num_tries (labeled_ this) (on_error_message_ this).

Definition regression (this : t) : t := num_responses 1 this.

Definition unlabeled (this : t) : t :=
  mk (path_to_full_ this) (path_to_train_ this) (path_to_test_ this)
     (path_to_index_ this) (num_features_ this) (num_responses_ this)
     (num_blocks_ this) (num_tries_ this) false (on_error_message_ this).

Definition on_error (message : string) (this : t) : t :=
  mk (path_to_full_ this) (path_to_train_ this) (path_to_test_ this)
     (path_to_index_ this) (num_features_ this) (num_responses_ this)
     (num_blocks_ this) (num_tries_ this) (labeled_ this) message.

(** [path.empty()] *)
Definition string_empty (s : string) : bool :=
  match s with EmptyString => true | String _ _ => false end.

(** [ds.loadDataBlock(table)] on the tables behind [targets], followed
    by [ds.status()]. *)
Definition load_data_block (path : string) (targets : list handle) : M bool :=
  fun w =>
    match mapM (fun h => heap w !! h) targets with
    | Some tables =>
        let '(tables', status) := loadDataBlock w path tables in
        let heap' :=
          foldl (fun hp ht => <[ht.1 := ht.2]> hp) (heap w) (zip targets tables') in
        (with_csv_loaded (with_heap w heap') (path :: csv_loaded w), Ok status)
    | None => (w, Undefined)
    end.

Definition check_data_source_status (path : string) (status : bool) : M unit :=
  if status then ret tt
  else throw (CannotReadCsv ("Cannot read CSV file '" +:+ path +:+ "'")).

Section Load.

Variable decl : declarations.

Definition load_no_response_variable (this : t) (path : string)
    (numeric_table_type : NumericTableType) : M DataSlice.t :=
  x <~ create_numeric_table numeric_table_type (num_features_ this)
         (default_num_observations decl) (default_allocation_flag decl) ;;
  status <~ load_data_block path (option_list x) ;;
  _ <~ check_data_source_status path status ;;
  DataSlice.make_x x (num_blocks_ this) numeric_table_type.

Definition load_with_response_variable (this : t) (path : string)
    (numeric_table_type : NumericTableType) : M DataSlice.t :=
  if num_features_ this =? 0 then
    throw (CannotLoadDataset
             ("Cannot load dataset '" +:+ path +:+
              "' with responses. " +:+
              "Number of features undefined. To load CSV dataset with " +:+
              "responses FeaturesNumber must be specified."))
  else
    x <~ create_numeric_table numeric_table_type (num_features_ this)
           (default_num_observations decl) (default_allocation_flag decl) ;;
    y <~ create_numeric_table numeric_table_type 1
           (default_num_observations decl) (default_allocation_flag decl) ;;
    xy <~ lift (DataSlice.merged_create x y) ;;
    status <~ load_data_block path [merged_first xy; merged_second xy] ;;
    _ <~ check_data_source_status path status ;;
    DataSlice.make_xy x y (num_blocks_ this) numeric_table_type.

Definition load_slice (this : t) (path : string)
    (numeric_table_type : NumericTableType) : M DataSlice.t :=
  if string_empty path then ret (DataSlice.make_empty (slice_labeled_default decl))
  else
    fun w =>
      if negb (can_open_file w path) then
        (w, Throw (CannotOpenFile
                     (join_sentences decl
                        [ "Cannot open dataset file '" +:+ path +:+ "'";
                          on_error_message_ this ])))
      else if labeled_ this && (0 <? num_responses_ this) then
        load_with_response_variable this path numeric_table_type w
      else load_no_response_variable this path numeric_table_type w.

Definition load (this : t) (numeric_table_type : NumericTableType) : M Dataset.t :=
  train_slice <~ load_slice this (path_to_train_ this) numeric_table_type ;;
  test_slice <~ load_slice this (path_to_test_ this) numeric_table_type ;;
  full_slice <~ load_slice this (path_to_full_ this) numeric_table_type ;;
  index_slice <~ load_slice this (path_to_index_ this) numeric_table_type ;;
  ret (Dataset.set_num_features (num_features_ this)
         (Dataset.set_num_tries (num_tries_ this)
            (Dataset.set_num_responses (num_responses_ this)
               (Dataset.make train_slice test_slice full_slice index_slice)))).

End Load.

End DatasetFromCsv.

(** ** What the claims speak of *)

(** The integer ceiling of [a / b]. *)
Definition ceil_div (a b : Z) : Z := (a + b - 1) / b.

(** The rows [first, first + count) of a row-major buffer of [cols]
    columns. *)
Definition rows_of (cols first count : Z) (data : list double) : list double :=
  take (Z.to_nat (count * cols)) (drop (Z.to_nat (first * cols)) data).

(** Block [i] of [src] for blocks of [b] rows, as a table of type [ty]:
    the rows from [i * b] on, [b] of them or as many as are left, each
    value stored as the element type of [ty]. *)
Definition block_table (src : NumericTable) (ty : NumericTableType) (i b : Z)
    : NumericTable :=
  let rows := Z.min b (nt_rows src - i * b) in
  mkNumericTable ty (nt_cols src) rows
    (map (store_as ty) (rows_of (nt_cols src) (i * b) rows (nt_data src))).

(** [s] occurs in [t]. *)
Definition contains (s t : string) : Prop :=
  exists pre post, t = pre +:+ s +:+ post.

(** A joiner of sentences: each one followed by a blank. *)
Fixpoint join_with_blanks (sentences : list string) : string :=
  match sentences with
  | [] => ""
  | s :: rest => s +:+ " " +:+ join_with_blanks rest
  end.






(** The reading of C2 as it is written: the block copied from the table
    behind [hx] reads back, element by element, as the rows of the
    source from [i * b] on. *)
Definition copies_exactly (w : world) (hx : handle) (ty : NumericTableType)
    (i b : Z) : Prop :=
  exists src w' h blk,
    heap w !! hx = Some src
    /\ DataSlice.copy_block (Some hx) ty i b w = (w', Ok (Some h))
    /\ heap w' !! h = Some blk
    /\ forall row col, 0 <= row < nt_rows blk -> 0 <= col < nt_cols blk ->
         exists d, nt_at blk row col = Some d
                   /\ nt_at src (i * b + row) col = Some d.

(** ** Worlds to run the code in *)

(** A backend that allocates tables of less than [2^32] elements. *)
Definition bounded_allocator (ty : NumericTableType) (cols rows : Z)
    (flag : AllocationFlag) : bool :=
  rows * cols <? 2 ^ 32.

Definition world_of (tables : list NumericTable) (openable : string -> bool) : world :=
  mkWorld tables bounded_allocator openable (fun _ ts => (ts, false)) [].

(** The double nearest to an integer. *)
Definition double_of (z : Z) : double := binary_normalize 53 1024 z 0 false.

(** A table of one column. *)
Definition column (ty : NumericTableType) (values : list Z) : NumericTable :=
  mkNumericTable ty 1 (Z.of_nat (length values)) (map double_of values).

Definition no_file (path : string) : bool := false.
Definition any_file (path : string) : bool := true.

(** Declarations to run the loader with. *)
Definition example_declarations : declarations :=
  mkDeclarations false 0 notAllocate join_with_blanks.

(** A data source that reads [rows] rows of zeros into every table it
    is given, and reports success. *)
Definition reads_rows (rows : Z) (path : string) (targets : list NumericTable)
    : list NumericTable * bool :=
  (map (fun t => mkNumericTable (nt_type t) (nt_cols t) rows
                   (replicate (Z.to_nat (rows * nt_cols t)) zero)) targets,
   true).

(** A world without tables in which every file opens and holds [rows]
    rows. *)
Definition csv_world (rows : Z) : world :=
  mkWorld [] bounded_allocator any_file (reads_rows rows) [].

(** ** What a construction has done when it returns *)

(** [e] is one of the two exceptions of [create_numeric_table]: the one
    for a type that is not implemented, the other for a table the
    backend did not yield. *)
Definition factory_error (ty : NumericTableType) (e : exn) : Prop :=
  (ty = OtherNumericTable
   /\ e = NotAvailableNumericTable "The given numeric table type is not implemented")
  \/ (ty <> OtherNumericTable /\ e = EmptyNumericTable "The numeric table is empty").

(** The first [j] blocks of [s] (of its feature blocks and, with
    [labels], of its label blocks) are handles of tables that [w'] has
    and [w] had not; [w'] is [w] with more tables. *)
Definition blocks_fresh (w : world) (n : nat) (labels : bool) (j : nat)
    (w' : world) (s : DataSlice.t) : Prop :=
  (exists new, w' = with_heap w (heap w ++ new))
  /\ length (DataSlice.x_blocks_ s) = n
  /\ (forall i, (i < j)%nat ->
        exists h, DataSlice.x_blocks_ s !! i = Some (Some h)
                  /\ (length (heap w) <= h < length (heap w'))%nat)
  /\ (labels = true ->
      length (DataSlice.y_blocks_ s) = n
      /\ forall i, (i < j)%nat ->
           exists h, DataSlice.y_blocks_ s !! i = Some (Some h)
                     /\ (length (heap w) <= h < length (heap w'))%nat).

(** ** Rounding to binary32, step by step *)

(** The last step of [binary_round_aux]. *)
Definition renormalize (s : bool) (mm e : Z) : spec_float :=
  let '(mrs, e') := shr_fexp Float32.prec Float32.emax mm e loc_Exact in
  match shr_m mrs with
  | Z0 => S754_zero s
  | Z.pos m => if e' <=? Float32.emax - Float32.prec then S754_finite s m e'
               else S754_infinity s
  | Z.neg _ => S754_nan
  end.

(** The location after one more bit is shifted out. *)
Definition shifted_loc (odd : bool) (l : location) : location :=
  match odd, l with
  | false, loc_Exact => loc_Exact
  | false, loc_Inexact _ => loc_Inexact Lt
  | true, loc_Exact => loc_Inexact Eq
  | true, loc_Inexact _ => loc_Inexact Gt
  end.

(** What [binary_round_aux] makes of a mantissa of 24 or 25 bits, in
    units of the exponent it was given. *)
Definition rounded (q : Z) (l : location) : Z :=
  if q <? 2 ^ 24 then round_nearest_even q l
  else 2 * round_nearest_even (q / 2) (shifted_loc (Z.odd q) l).

(** ** The claims as they are written *)

(** The reading of C4 as it is written: an exception for every index
    that is out of range or whose block is null, the block otherwise. *)
Definition x_block_checked (s : DataSlice.t) (i : Z) : Prop :=
  match DataSlice.x_blocks_ s !! Z.to_nat i with
  | Some (Some h) => DataSlice.x_block s i = Ok (Some h)
  | Some None | None => exists msg, DataSlice.x_block s i = Throw (EmptyNumericTable msg)
  end.

(** The reading of C6 as it is written. *)
Definition cleared_is_empty (d : Dataset.t) : Prop :=
  let d' := Dataset.clear d in
  (DataSlice.empty (Dataset.train_slice_ d') = true
   /\ DataSlice.empty (Dataset.test_slice_ d') = true
   /\ DataSlice.empty (Dataset.full_slice_ d') = true
   /\ DataSlice.empty (Dataset.index_slice_ d') = true)
  /\ (Dataset.has_full d' = false /\ Dataset.has_train d' = false
      /\ Dataset.has_test d' = false)
  /\ ((exists m, Dataset.full d' = Throw (EmptyNumericTable m))
      /\ (exists m, Dataset.train d' = Throw (EmptyNumericTable m))
      /\ (exists m, Dataset.test d' = Throw (EmptyNumericTable m))
      /\ (exists m, Dataset.index d' = Throw (EmptyNumericTable m))).

(** What [DataSlice::clear] does to one slice. *)
Definition slice_reset (s s' : DataSlice.t) : Prop :=
  length (DataSlice.x_blocks_ s') = length (DataSlice.x_blocks_ s)
  /\ length (DataSlice.y_blocks_ s') = length (DataSlice.y_blocks_ s)
  /\ DataSlice.labeled_ s' = DataSlice.labeled_ s
  /\ DataSlice.empty s' = DataSlice.empty s
  /\ (forall i, 0 <= i < Z.of_nat (length (DataSlice.x_blocks_ s)) ->
        DataSlice.x_block s' i
        = Throw (EmptyNumericTable "Dataset does not contain X slice"))
  /\ (forall i, 0 <= i < Z.of_nat (length (DataSlice.y_blocks_ s)) ->
        DataSlice.y_block s' i
        = Throw (EmptyNumericTable "Dataset does not contain Y slice")).

(** The reading of C10 as it is written: the block copied from the
    table behind [hx] holds, at each [(row, col)], the value of the
    source at [(i * b + row, col)] up to the conversion of the element
    type of the source, and of no other type, to and from double. *)
Definition exact_up_to_source_type (w : world) (hx : handle)
    (ty : NumericTableType) (i b : Z) : Prop :=
  exists src w' h blk,
    heap w !! hx = Some src
    /\ DataSlice.copy_block (Some hx) ty i b w = (w', Ok (Some h))
    /\ heap w' !! h = Some blk
    /\ forall row col, 0 <= row < nt_rows blk -> 0 <= col < nt_cols blk ->
         exists d, nt_at src (i * b + row) col = Some d
                   /\ nt_at blk row col = Some (store_as (nt_type src) d).

(** * Properties *)

(** ** Vectors and outcomes *)

Lemma vec_empty_nil {A} (v : list A) : vec_empty v = true <-> v = [].
Proof. destruct v; simpl; split; congruence. Qed.

Lemma vec_at_lookup {A} (v : list A) (i : Z) (a : A) :
  v !! Z.to_nat i = Some a -> vec_at v i = Ok a.
Proof. unfold vec_at. now intros ->. Qed.

Lemma vec_at_out_of_range {A} (v : list A) (i : Z) :
  (length v <= Z.to_nat i)%nat -> vec_at v i = Undefined.
Proof. intros H. unfold vec_at. now rewrite (lookup_ge_None_2 v _ H). Qed.


(** ** One block: the tables are shared, not copied *)

(** C3. A slice built with [num_blocks == 1] leaves the world as it was
    (no table is allocated, no element is copied) and holds the very
    handles it was given: [x()] and [x_block(0)] return the feature
    handle, and for a labeled slice [y()] and [y_block(0)] return the
    label handle. *)
Theorem single_block_shares_handles (w : world) (hx hy : handle)
    (ty : NumericTableType) :
  (exists s,
      DataSlice.make_x (Some hx) 1 ty w = (w, Ok s)
      /\ DataSlice.x s = Ok (Some hx)
      /\ DataSlice.x_block s 0 = Ok (Some hx))
  /\ (exists s,
      DataSlice.make_xy (Some hx) (Some hy) 1 ty w = (w, Ok s)
      /\ DataSlice.x s = Ok (Some hx)
      /\ DataSlice.x_block s 0 = Ok (Some hx)
      /\ DataSlice.y s = Ok (Some hy)
      /\ DataSlice.y_block s 0 = Ok (Some hy)).
Proof.
  split.
  - exists (DataSlice.mk [Some hx] [] false). repeat split.
  - exists (DataSlice.mk [Some hx] [Some hy] true). repeat split.
Qed.

(** ** Block accessors *)

(** Index 1 of a slice of one block: the vector is read past its end. *)
Lemma x_block_past_the_end :
  ~ x_block_checked (DataSlice.mk [Some 0%nat] [] false) 1.
Proof. unfold x_block_checked. simpl. intros [msg H]. discriminate H. Qed.

(** C4 (amended). [x_block(i)] throws [EmptyNumericTable] when the
    sequence of feature blocks is empty or when block [i] is a null
    handle, and returns block [i] when it is populated; when the
    sequence is not empty and [i] is past its end no check is made and
    the behaviour is undefined.  [y_block(i)] does the same on the
    label blocks. *)
Theorem block_accessors (s : DataSlice.t) (i : Z) :
  0 <= i ->
  ((DataSlice.x_blocks_ s = [] \/ DataSlice.x_blocks_ s !! Z.to_nat i = Some None ->
      DataSlice.x_block s i = Throw (EmptyNumericTable "Dataset does not contain X slice"))
   /\ (forall h, DataSlice.x_blocks_ s !! Z.to_nat i = Some (Some h) ->
      DataSlice.x_block s i = Ok (Some h))
   /\ (DataSlice.x_blocks_ s <> [] -> Z.of_nat (length (DataSlice.x_blocks_ s)) <= i ->
      DataSlice.x_block s i = Undefined))
  /\ ((DataSlice.y_blocks_ s = [] \/ DataSlice.y_blocks_ s !! Z.to_nat i = Some None ->
      DataSlice.y_block s i = Throw (EmptyNumericTable "Dataset does not contain Y slice"))
   /\ (forall h, DataSlice.y_blocks_ s !! Z.to_nat i = Some (Some h) ->
      DataSlice.y_block s i = Ok (Some h))
   /\ (DataSlice.y_blocks_ s <> [] -> Z.of_nat (length (DataSlice.y_blocks_ s)) <= i ->
      DataSlice.y_block s i = Undefined)).
Proof.
  intros Hi. destruct s as [xs ys lab]. unfold DataSlice.x_block, DataSlice.y_block.
  cbn [DataSlice.x_blocks_ DataSlice.y_blocks_]. split.
  - repeat split.
    + intros [-> | H]; [reflexivity |].
      rewrite (vec_at_lookup _ _ _ H). now destruct xs.
    + intros h H. rewrite (vec_at_lookup _ _ _ H).
      destruct xs; [now rewrite lookup_nil in H | reflexivity].
    + intros Hne Hlen. rewrite vec_at_out_of_range by lia. now destruct xs.
  - repeat split.
    + intros [-> | H]; [reflexivity |].
      rewrite (vec_at_lookup _ _ _ H). now destruct ys.
    + intros h H. rewrite (vec_at_lookup _ _ _ H).
      destruct ys; [now rewrite lookup_nil in H | reflexivity].
    + intros Hne Hlen. rewrite vec_at_out_of_range by lia. now destruct ys.
Qed.

Lemma block_accessors_witness :
  DataSlice.x_block (DataSlice.mk [Some 3%nat; None] [] false) 0 = Ok (Some 3%nat)
  /\ DataSlice.x_block (DataSlice.mk [Some 3%nat; None] [] false) 1
     = Throw (EmptyNumericTable "Dataset does not contain X slice")
  /\ DataSlice.y_block (DataSlice.mk [Some 3%nat; None] [] false) 1
     = Throw (EmptyNumericTable "Dataset does not contain Y slice").
Proof.
  pose proof (block_accessors (DataSlice.mk [Some 3%nat; None] [] false) 0 ltac:(lia))
    as [[_ [H0 _]] _].
  pose proof (block_accessors (DataSlice.mk [Some 3%nat; None] [] false) 1 ltac:(lia))
    as [[H1 _] [H2 _]].
  split; [apply H0; reflexivity |].
  split; [apply H1; right; reflexivity | apply H2; left; reflexivity].
Defined.

(** ** Merged views *)

(** [xy()] guards both sequences before it merges their last blocks. *)
Lemma xy_guarded (s : DataSlice.t) :
  DataSlice.x_blocks_ s = [] \/ DataSlice.y_blocks_ s = [] ->
  DataSlice.xy s
  = Throw (EmptyNumericTable "Dataset does not contain either X or Y slices").
Proof.
  unfold DataSlice.xy. intros [-> | ->]; [reflexivity |].
  now rewrite orb_true_r.
Qed.

(** X4. [xy_blocks(i)] on populated blocks: the merged view of feature
    block [i] followed by label block [i]. *)
Lemma xy_blocks_populated (s : DataSlice.t) (i : Z) (hx hy : handle) :
  DataSlice.x_blocks_ s !! Z.to_nat i = Some (Some hx) ->
  DataSlice.y_blocks_ s !! Z.to_nat i = Some (Some hy) ->
  DataSlice.xy_blocks s i = Ok (mkMerged hx hy).
Proof.
  intros Hx Hy. unfold DataSlice.xy_blocks.
  now rewrite (vec_at_lookup _ _ _ Hx), (vec_at_lookup _ _ _ Hy).
Qed.

(** [xy_blocks(i)] on a null block. *)
Lemma xy_blocks_null (s : DataSlice.t) (i : Z) :
  DataSlice.x_blocks_ s !! Z.to_nat i = Some None
  \/ (exists hx, DataSlice.x_blocks_ s !! Z.to_nat i = Some (Some hx))
     /\ DataSlice.y_blocks_ s !! Z.to_nat i = Some None ->
  DataSlice.xy_blocks s i
  = Throw (EmptyNumericTable "Dataset does not contain either X or Y slices").
Proof.
  unfold DataSlice.xy_blocks. intros [Hx | [[hx Hx] Hy]].
  - now rewrite (vec_at_lookup _ _ _ Hx).
  - now rewrite (vec_at_lookup _ _ _ Hx), (vec_at_lookup _ _ _ Hy).
Qed.

(** C5 (the code at the failing input). An unlabeled slice of one block,
    as [DataSlice(x, 1, type)] builds it, has no label blocks; [xy()]
    and [y_block(0)] throw [EmptyNumericTable] on it, [xy_blocks(0)]
    indexes the empty label vector instead. *)
Theorem xy_blocks_unlabeled_unchecked (w : world) (hx : handle)
    (ty : NumericTableType) :
  exists s,
    DataSlice.make_x (Some hx) 1 ty w = (w, Ok s)
    /\ DataSlice.xy s
       = Throw (EmptyNumericTable "Dataset does not contain either X or Y slices")
    /\ DataSlice.y_block s 0
       = Throw (EmptyNumericTable "Dataset does not contain Y slice")
    /\ DataSlice.xy_blocks s 0 = Undefined.
Proof. exists (DataSlice.mk [Some hx] [] false). repeat split. Qed.

(** ** [clear] *)

Lemma cleared_blocks_null (v : list NumericTablePtr) (i : nat) :
  (i < length v)%nat -> map (fun _ => None) v !! i = Some (@None nat).
Proof.
  intros H. rewrite list_lookup_fmap.
  destruct (lookup_lt_is_Some_2 v i H) as [p ->]. reflexivity.
Qed.

Lemma vec_empty_cleared (v : list NumericTablePtr) :
  vec_empty (map (fun _ : option nat => @None nat) v) = vec_empty v.
Proof. now destruct v. Qed.

Lemma empty_clear (s : DataSlice.t) :
  DataSlice.empty (DataSlice.clear s) = DataSlice.empty s.
Proof.
  unfold DataSlice.empty, DataSlice.clear. simpl.
  now rewrite !vec_empty_cleared.
Qed.

(** A dataset whose full slice holds one block: after [clear()] the
    slice still counts one (null) block and is not empty. *)
Lemma clear_keeps_full_slice :
  ~ cleared_is_empty
      (Dataset.make (DataSlice.make_empty false) (DataSlice.make_empty false)
         (DataSlice.mk [Some 0%nat] [] false) (DataSlice.make_empty false)).
Proof. intros [[_ [_ [H _]]] _]. discriminate H. Qed.

Lemma clear_slice_reset (s : DataSlice.t) : slice_reset s (DataSlice.clear s).
Proof.
  unfold slice_reset. rewrite empty_clear. destruct s as [xs ys lab].
  unfold DataSlice.clear, DataSlice.x_block, DataSlice.y_block.
  cbn [DataSlice.x_blocks_ DataSlice.y_blocks_ DataSlice.labeled_].
  rewrite !length_map. repeat split.
  - intros i Hi. rewrite vec_empty_cleared.
    rewrite (vec_at_lookup _ i None) by (apply cleared_blocks_null; lia).
    now destruct xs.
  - intros i Hi. rewrite vec_empty_cleared.
    rewrite (vec_at_lookup _ i None) by (apply cleared_blocks_null; lia).
    now destruct ys.
Qed.

(** C6 (amended). [Dataset::clear()] resets every block handle of the
    four slices to null and keeps the block sequences at their lengths:
    in each slice [x_block(i)] and [y_block(i)] throw
    [EmptyNumericTable] for every index in range, while [empty()],
    [has_full()], [has_train()], [has_test()] answer as before the call,
    and [full()], [train()], [test()], [index()] throw
    [EmptyNumericTable] exactly for the slices that had no blocks
    before. *)
Theorem clear_resets_handles (d : Dataset.t) :
  let d' := Dataset.clear d in
  (slice_reset (Dataset.train_slice_ d) (Dataset.train_slice_ d')
   /\ slice_reset (Dataset.test_slice_ d) (Dataset.test_slice_ d')
   /\ slice_reset (Dataset.full_slice_ d) (Dataset.full_slice_ d')
   /\ slice_reset (Dataset.index_slice_ d) (Dataset.index_slice_ d'))
  /\ (Dataset.has_full d' = Dataset.has_full d
      /\ Dataset.has_train d' = Dataset.has_train d
      /\ Dataset.has_test d' = Dataset.has_test d)
  /\ (((exists m, Dataset.full d' = Throw (EmptyNumericTable m))
         <-> DataSlice.empty (Dataset.full_slice_ d) = true)
      /\ ((exists m, Dataset.train d' = Throw (EmptyNumericTable m))
         <-> DataSlice.empty (Dataset.train_slice_ d) = true)
      /\ ((exists m, Dataset.test d' = Throw (EmptyNumericTable m))
         <-> DataSlice.empty (Dataset.test_slice_ d) = true)
      /\ ((exists m, Dataset.index d' = Throw (EmptyNumericTable m))
         <-> DataSlice.empty (Dataset.index_slice_ d) = true)).
Proof.
  intros d'. subst d'. split; [| split].
  - repeat split; apply clear_slice_reset.
  - unfold Dataset.has_full, Dataset.has_train, Dataset.has_test, Dataset.clear.
    simpl. now rewrite !empty_clear.
  - unfold Dataset.full, Dataset.train, Dataset.test, Dataset.index, Dataset.clear.
    simpl. rewrite !empty_clear.
    repeat split;
      match goal with
      | |- (exists _, (if ?b then _ else _) = _) -> _ =>
          destruct b; [reflexivity | intros [m H]; discriminate H]
      | |- ?b = true -> _ => intros ->; eexists; reflexivity
      end.
Qed.

(** ** Fallback accessors *)

(** C7. [full_or_train()] returns the full slice when it is not empty,
    else the train slice when that one is not empty, and throws
    [EmptyNumericTable] when both are empty; [full_or_test()] does the
    same with the test slice. *)
Theorem full_or_fallback (d : Dataset.t) :
  (DataSlice.empty (Dataset.full_slice_ d) = false ->
     Dataset.full_or_train d = Ok (Dataset.full_slice_ d)
     /\ Dataset.full_or_test d = Ok (Dataset.full_slice_ d))
  /\ (DataSlice.empty (Dataset.full_slice_ d) = true ->
      (DataSlice.empty (Dataset.train_slice_ d) = false ->
         Dataset.full_or_train d = Ok (Dataset.train_slice_ d))
      /\ (DataSlice.empty (Dataset.train_slice_ d) = true ->
         Dataset.full_or_train d
         = Throw (EmptyNumericTable "Full and Train slices of the dataset are empty"))
      /\ (DataSlice.empty (Dataset.test_slice_ d) = false ->
         Dataset.full_or_test d = Ok (Dataset.test_slice_ d))
      /\ (DataSlice.empty (Dataset.test_slice_ d) = true ->
         Dataset.full_or_test d
         = Throw (EmptyNumericTable "Full and Test slices of the dataset are empty"))).
Proof.
  unfold Dataset.full_or_train, Dataset.full_or_test, Dataset.has_full,
    Dataset.has_train, Dataset.has_test, Dataset.full, Dataset.train, Dataset.test.
  split.
  - intros ->. split; reflexivity.
  - intros ->. repeat split; intros ->; reflexivity.
Qed.

(** ** Loading *)

Lemma string_app_assoc (a b c : string) : (a +:+ b) +:+ c = a +:+ b +:+ c.
Proof.
  induction a as [| ch a IH]; [reflexivity |].
  change (String ch ((a +:+ b) +:+ c) = String ch (a +:+ b +:+ c)).
  now rewrite IH.
Qed.

Lemma contains_refl_prefix (s post : string) : contains s (s +:+ post).
Proof. exists "", post. reflexivity. Qed.

Lemma contains_append_l (s t pre : string) : contains s t -> contains s (pre +:+ t).
Proof.
  intros [p [q ->]]. exists (pre +:+ p), q. now rewrite string_app_assoc.
Qed.

Lemma contains_append_r (s t post : string) : contains s t -> contains s (t +:+ post).
Proof.
  intros [p [q ->]]. exists p, (q +:+ post). now rewrite !string_app_assoc.
Qed.

(** Each sentence occurs in the text [join_with_blanks] makes of them. *)
Lemma join_with_blanks_contains (sentences : list string) (s : string) :
  In s sentences -> contains s (join_with_blanks sentences).
Proof.
  induction sentences as [| s0 rest IH]; intros Hin; [destruct Hin |].
  destruct Hin as [-> | Hin]; simpl.
  - apply contains_refl_prefix.
  - apply contains_append_l, contains_append_l, IH, Hin.
Qed.

Lemma empty_make_empty (labeled_default : bool) :
  DataSlice.empty (DataSlice.make_empty labeled_default) = true.
Proof. now destruct labeled_default. Qed.

Lemma string_empty_spec (s : string) : DatasetFromCsv.string_empty s = true <-> s = "".
Proof. destruct s; simpl; split; congruence. Qed.

Lemma load_slice_unset (decl : declarations) (this : DatasetFromCsv.t)
    (ty : NumericTableType) (w : world) :
  DatasetFromCsv.load_slice decl this "" ty w
  = (w, Ok (DataSlice.make_empty (slice_labeled_default decl))).
Proof. reflexivity. Qed.

Lemma bind_ok {A B} (m : M A) (k : A -> M B) (w w' : world) (b : B) :
  bind m k w = (w', Ok b) ->
  exists w1 a, m w = (w1, Ok a) /\ k a w1 = (w', Ok b).
Proof.
  unfold bind. destruct (m w) as [w1 [a | e |]]; intros H; try discriminate H.
  now exists w1, a.
Qed.

(** The slices of a loaded dataset are the four loaded slices, in the
    order train, test, full, index. *)
Lemma load_ok (decl : declarations) (this : DatasetFromCsv.t)
    (ty : NumericTableType) (w w' : world) (d : Dataset.t) :
  DatasetFromCsv.load decl this ty w = (w', Ok d) ->
  exists w1 w2 w3,
    DatasetFromCsv.load_slice decl this (DatasetFromCsv.path_to_train_ this) ty w
      = (w1, Ok (Dataset.train_slice_ d))
    /\ DatasetFromCsv.load_slice decl this (DatasetFromCsv.path_to_test_ this) ty w1
      = (w2, Ok (Dataset.test_slice_ d))
    /\ DatasetFromCsv.load_slice decl this (DatasetFromCsv.path_to_full_ this) ty w2
      = (w3, Ok (Dataset.full_slice_ d))
    /\ DatasetFromCsv.load_slice decl this (DatasetFromCsv.path_to_index_ this) ty w3
      = (w', Ok (Dataset.index_slice_ d)).
Proof.
  unfold DatasetFromCsv.load. intros H.
  apply bind_ok in H as (w1 & s1 & H1 & H).
  apply bind_ok in H as (w2 & s2 & H2 & H).
  apply bind_ok in H as (w3 & s3 & H3 & H).
  apply bind_ok in H as (w4 & s4 & H4 & H).
  unfold ret in H. injection H as <- <-. simpl.
  now exists w1, w2, w3.
Qed.

(** C8. A role whose path is unset loads as an empty slice, without a
    change to the world, and the accessor of that role on the loaded
    dataset throws [EmptyNumericTable]; a path that is set and cannot be
    opened makes [load_slice] (and [load], for the train path, which it
    loads first) throw [CannotOpenFile], and the message contains the
    path and the configured diagnostic as soon as [join_sentences] keeps
    each sentence it is given. *)
Theorem unset_or_unopenable_path (decl : declarations) (this : DatasetFromCsv.t)
    (ty : NumericTableType) (w : world) :
  (forall sentences s, In s sentences -> contains s (join_sentences decl sentences)) ->
  (exists s, DatasetFromCsv.load_slice decl this "" ty w = (w, Ok s)
             /\ DataSlice.empty s = true)
  /\ (forall w' d, DatasetFromCsv.load decl this ty w = (w', Ok d) ->
        (DatasetFromCsv.path_to_train_ this = "" ->
           Dataset.train d = Throw (EmptyNumericTable "Train slice of the dataset is empty"))
        /\ (DatasetFromCsv.path_to_test_ this = "" ->
           Dataset.test d = Throw (EmptyNumericTable "Test slice of the dataset is empty"))
        /\ (DatasetFromCsv.path_to_full_ this = "" ->
           Dataset.full d = Throw (EmptyNumericTable "Full slice of the dataset is empty"))
        /\ (DatasetFromCsv.path_to_index_ this = "" ->
           Dataset.index d = Throw (EmptyNumericTable "Index slice of the dataset is empty")))
  /\ (forall path, path <> "" -> can_open_file w path = false ->
        exists msg,
          DatasetFromCsv.load_slice decl this path ty w = (w, Throw (CannotOpenFile msg))
          /\ contains path msg
          /\ contains (DatasetFromCsv.on_error_message_ this) msg)
  /\ (DatasetFromCsv.path_to_train_ this <> "" ->
      can_open_file w (DatasetFromCsv.path_to_train_ this) = false ->
        exists msg,
          DatasetFromCsv.load decl this ty w = (w, Throw (CannotOpenFile msg))
          /\ contains (DatasetFromCsv.path_to_train_ this) msg
          /\ contains (DatasetFromCsv.on_error_message_ this) msg).
Proof.
  intros Hjoin.
  assert (Hslice : forall path, path <> "" -> can_open_file w path = false ->
            exists msg,
              DatasetFromCsv.load_slice decl this path ty w
                = (w, Throw (CannotOpenFile msg))
              /\ contains path msg
              /\ contains (DatasetFromCsv.on_error_message_ this) msg).
  { intros path Hpath Hopen. unfold DatasetFromCsv.load_slice.
    destruct (DatasetFromCsv.string_empty path) eqn:He.
    { apply string_empty_spec in He. contradiction. }
    rewrite Hopen. simpl. eexists. split; [reflexivity |]. split.
    - destruct (Hjoin [ "Cannot open dataset file '" +:+ path +:+ "'";
                        DatasetFromCsv.on_error_message_ this ]
                  ("Cannot open dataset file '" +:+ path +:+ "'")
                  ltac:(left; reflexivity)) as [p [q ->]].
      apply contains_append_l, contains_append_r.
      apply contains_append_l, contains_refl_prefix.
    - apply Hjoin. right. left. reflexivity. }
  split; [| split; [| split]].
  - eexists. split; [apply load_slice_unset | apply empty_make_empty].
  - intros w' d Hload.
    apply load_ok in Hload as (w1 & w2 & w3 & H1 & H2 & H3 & H4).
    unfold Dataset.train, Dataset.test, Dataset.full, Dataset.index.
    repeat split; intros Hp.
    + rewrite Hp, load_slice_unset in H1. injection H1 as _ <-.
      now rewrite empty_make_empty.
    + rewrite Hp, load_slice_unset in H2. injection H2 as _ <-.
      now rewrite empty_make_empty.
    + rewrite Hp, load_slice_unset in H3. injection H3 as _ <-.
      now rewrite empty_make_empty.
    + rewrite Hp, load_slice_unset in H4. injection H4 as _ <-.
      now rewrite empty_make_empty.
  - exact Hslice.
  - intros Hpath Hopen.
    destruct (Hslice _ Hpath Hopen) as (msg & Hl & Hc1 & Hc2).
    exists msg. split; [| now split].
    unfold DatasetFromCsv.load, bind. now rewrite Hl.
Qed.

(** C9. With the labeled flag set and a positive number of responses, a
    path that is set and can be opened loads with
    [load_with_response_variable], which throws [CannotLoadDataset] when
    the number of features is zero; the world is then as before the
    call: no table was allocated and no CSV file was read. *)
Theorem labeled_load_needs_feature_count (decl : declarations)
    (this : DatasetFromCsv.t) (path : string) (ty : NumericTableType) (w : world) :
  DatasetFromCsv.labeled_ this = true ->
  0 < DatasetFromCsv.num_responses_ this ->
  DatasetFromCsv.num_features_ this = 0 ->
  path <> "" ->
  can_open_file w path = true ->
  exists msg,
    DatasetFromCsv.load_slice decl this path ty w = (w, Throw (CannotLoadDataset msg))
    /\ contains path msg
    /\ DatasetFromCsv.load_with_response_variable decl this path ty w
       = (w, Throw (CannotLoadDataset msg)).
Proof.
  intros Hlab Hresp Hfeat Hpath Hopen.
  unfold DatasetFromCsv.load_slice, DatasetFromCsv.load_with_response_variable.
  destruct (DatasetFromCsv.string_empty path) eqn:He.
  { apply string_empty_spec in He. contradiction. }
  rewrite Hopen, Hlab, Hfeat. simpl.
  destruct (Z.ltb_spec 0 (DatasetFromCsv.num_responses_ this)); [| lia].
  eexists. split; [reflexivity |]. split; [| reflexivity].
  apply contains_append_l, contains_refl_prefix.
Qed.

(** ** Copying a block *)

Lemma to_size_t_small (z : Z) : 0 <= z < SIZE_MODULUS -> to_size_t z = z.
Proof. intros H. unfold to_size_t. now apply Z.mod_small. Qed.

Lemma size_modulus_pos : 0 < SIZE_MODULUS.
Proof. reflexivity. Qed.

Lemma with_heap_heap (w : world) (h : list NumericTable) : heap (with_heap w h) = h.
Proof. reflexivity. Qed.

Lemma with_heap_twice (w : world) (h1 h2 : list NumericTable) :
  with_heap (with_heap w h1) h2 = with_heap w h2.
Proof. reflexivity. Qed.

(** [copy_block] on a block that starts inside the table: one table is
    appended to the heap, [block_table], and its handle returned. *)
Lemma copy_block_spec (w : world) (hx : handle) (src : NumericTable)
    (ty : NumericTableType) (i b : Z) :
  heap w !! hx = Some src ->
  nt_wf src ->
  ty <> OtherNumericTable ->
  0 <= i -> 0 <= b ->
  i * b <= nt_rows src ->
  i * b + b < SIZE_MODULUS ->
  allocates w ty (nt_cols src) (Z.min b (nt_rows src - i * b)) doAllocate = true ->
  DataSlice.copy_block (Some hx) ty i b w
  = (with_heap w (heap w ++ [block_table src ty i b]), Ok (Some (length (heap w)))).
Proof.
  intros Hsrc [Hc Hr Hsz Hlen _] Hty Hi Hb Hstart Hend Halloc.
  pose proof size_modulus_pos as Hpos.
  set (R := nt_rows src) in *. set (C := nt_cols src) in *.
  set (rows := Z.min b (R - i * b)) in *.
  assert (Hrows : 0 <= rows <= R - i * b) by (unfold rows; lia).
  assert (Hrc : 0 <= rows * C <= R * C) by nia.
  assert (Hoc : 0 <= i * b * C /\ i * b * C + rows * C <= R * C) by nia.
  unfold DataSlice.copy_block, bind, deref. rewrite Hsrc.
  fold R C.
  rewrite (to_size_t_small (i * b)) by lia.
  rewrite (to_size_t_small (i * b + b)) by lia.
  assert (Hmin : (if R <? i * b + b then R else i * b + b) - i * b = rows).
  { unfold rows. destruct (Z.ltb_spec R (i * b + b)); lia. }
  rewrite Hmin.
  rewrite (to_size_t_small rows) by lia.
  rewrite (to_size_t_small (C * rows)) by nia.
  rewrite (to_size_t_small (i * b * C)) by nia.
  unfold create_numeric_table. rewrite Halloc.
  assert (Hsel :
    (match ty with
     | SyclHomogenNumericTableFloat | SyclHomogenNumericTableDouble =>
         (with_heap w (heap w ++
            [mkNumericTable ty C rows (allocated_data C rows doAllocate)]),
          Ok (Some (length (heap w))))
     | OtherNumericTable =>
         (w, @Throw (option nat) (NotAvailableNumericTable
                      "The given numeric table type is not implemented"))
     end) =
    (with_heap w (heap w ++
       [mkNumericTable ty C rows (allocated_data C rows doAllocate)]),
     Ok (Some (length (heap w))))).
  { destruct ty; [reflexivity | reflexivity | contradiction]. }
  rewrite Hsel. clear Hsel.
  rewrite with_heap_heap, list_lookup_middle by reflexivity.
  unfold lift, std_copy. cbn [nt_data allocated_data].
  rewrite length_replicate, Hlen. fold R C.
  rewrite decide_True by (split; lia).
  unfold releaseBlockOfRows. rewrite with_heap_heap.
  rewrite list_lookup_middle by reflexivity.
  cbn [nt_type nt_cols nt_rows]. unfold ret. rewrite with_heap_twice.
  f_equal. f_equal.
  replace (length (heap w)) with (length (heap w) + 0)%nat at 1 by lia.
  rewrite insert_app_r. cbn [insert list_insert]. f_equal. f_equal.
  unfold block_table. fold R C rows. f_equal.
  replace (Z.to_nat (C * rows)) with (Z.to_nat (rows * C)) by (f_equal; lia).
  rewrite drop_replicate, Nat.sub_diag. cbn [replicate]. rewrite app_nil_r.
  reflexivity.
Qed.

Lemma block_table_rows (src : NumericTable) (ty : NumericTableType) (i b : Z) :
  nt_rows (block_table src ty i b) = Z.min b (nt_rows src - i * b).
Proof. reflexivity. Qed.

(** Element [(row, col)] of block [i] is element [(i * b + row, col)] of
    the source, stored as the element type of the block. *)
Lemma block_table_at (src : NumericTable) (ty : NumericTableType) (i b row col : Z) :
  nt_wf src ->
  0 <= i -> 0 <= b -> i * b <= nt_rows src ->
  0 <= row < nt_rows (block_table src ty i b) ->
  0 <= col < nt_cols src ->
  exists d,
    nt_at src (i * b + row) col = Some d
    /\ nt_at (block_table src ty i b) row col = Some (store_as ty d).
Proof.
  intros [Hc Hr Hsz Hlen _] Hi Hb Hstart Hrow Hcol.
  rewrite block_table_rows in Hrow.
  set (R := nt_rows src) in *. set (C := nt_cols src) in *.
  assert (Hin : (i * b + row) * C + col < R * C) by nia.
  assert (Hlt : (Z.to_nat ((i * b + row) * C + col) < length (nt_data src))%nat).
  { apply Nat2Z.inj_lt. rewrite Hlen, Z2Nat.id by nia. exact Hin. }
  destruct (lookup_lt_is_Some_2 _ _ Hlt) as [d Hd].
  exists d. split; [exact Hd |].
  unfold nt_at, block_table, rows_of. cbn [nt_data nt_cols]. fold R C.
  rewrite list_lookup_fmap, lookup_take_lt by (apply Z2Nat.inj_lt; nia).
  rewrite lookup_drop.
  replace (Z.to_nat (i * b * C) + Z.to_nat (row * C + col))%nat
    with (Z.to_nat ((i * b + row) * C + col)) by (rewrite <- Z2Nat.inj_add by nia; f_equal; lia).
  unfold nt_at in Hd. fold C in Hd. now rewrite Hd.
Qed.

(** ** The loop over the blocks *)




(** ** Several blocks *)

Lemma ceil_div_bounds (R n : Z) :
  0 < n -> 0 <= R ->
  0 <= ceil_div R n /\ R <= n * ceil_div R n /\ n * ceil_div R n < R + n.
Proof.
  intros Hn HR. unfold ceil_div.
  pose proof (Z.div_mod (R + n - 1) n ltac:(lia)) as Hdm.
  pose proof (Z.mod_pos_bound (R + n - 1) n Hn) as Hmod.
  assert (0 <= (R + n - 1) / n) by (apply Z.div_pos; lia).
  lia.
Qed.


(** ** The single-precision block size *)

Lemma digits2_pos_bounds (p : positive) :
  2 ^ (Z.pos (digits2_pos p) - 1) <= Z.pos p < 2 ^ Z.pos (digits2_pos p).
Proof.
  induction p as [p IH | p IH |]; cbn [digits2_pos].
  - rewrite Pos2Z.inj_succ, (Pos2Z.inj_xI p).
    replace (Z.succ (Z.pos (digits2_pos p)) - 1) with (Z.succ (Z.pos (digits2_pos p) - 1)) by lia.
    rewrite !Z.pow_succ_r by lia. lia.
  - rewrite Pos2Z.inj_succ, (Pos2Z.inj_xO p).
    replace (Z.succ (Z.pos (digits2_pos p)) - 1) with (Z.succ (Z.pos (digits2_pos p) - 1)) by lia.
    rewrite !Z.pow_succ_r by lia. lia.
  - simpl. lia.
Qed.

Lemma digits2_pos_unique (p : positive) (d : Z) :
  2 ^ (d - 1) <= Z.pos p < 2 ^ d -> Z.pos (digits2_pos p) = d.
Proof.
  intros [Hlo Hhi]. pose proof (digits2_pos_bounds p) as [Hlo' Hhi'].
  set (d' := Z.pos (digits2_pos p)) in *.
  assert (0 < d).
  { destruct (Z.le_gt_cases d 0) as [Hd | Hd]; [| exact Hd].
    exfalso. destruct (Z.eq_dec d 0) as [-> | Hne].
    - simpl in Hhi. lia.
    - rewrite Z.pow_neg_r in Hhi by lia. lia. }
  destruct (Z.lt_trichotomy d' d) as [Hlt | [Heq | Hgt]]; [| exact Heq |].
  - assert (2 ^ d' <= 2 ^ (d - 1)) by (apply Z.pow_le_mono_r; lia). lia.
  - assert (2 ^ d <= 2 ^ (d' - 1)) by (apply Z.pow_le_mono_r; lia). lia.
Qed.

Lemma iter_xO_pow (k p : positive) : Z.pos (Pos.iter xO p k) = Z.pos p * 2 ^ Z.pos k.
Proof.
  induction k as [| k IH] using Pos.peano_ind.
  - simpl. lia.
  - rewrite Pos.iter_succ, (Pos2Z.inj_xO (Pos.iter xO p k)), IH, Pos2Z.inj_succ, Z.pow_succ_r by lia. lia.
Qed.

Lemma shr_fexp_0 (m e : Z) (l : location) :
  fexp Float32.prec Float32.emax (Zdigits2 m + e) - e = 0 ->
  shr_fexp Float32.prec Float32.emax m e l = (shr_record_of_loc m l, e).
Proof. unfold shr_fexp. now intros ->. Qed.

Lemma shr_fexp_1 (m e : Z) (l : location) :
  fexp Float32.prec Float32.emax (Zdigits2 m + e) - e = 1 ->
  shr_fexp Float32.prec Float32.emax m e l = (shr_1 (shr_record_of_loc m l), e + 1).
Proof. unfold shr_fexp. now intros ->. Qed.

Lemma fexp_normal (d e : Z) :
  -149 <= d + e - 24 ->
  fexp Float32.prec Float32.emax (d + e) - e = d - 24.
Proof. unfold fexp, emin, Float32.prec, Float32.emax. lia. Qed.

Lemma shr_m_of_loc (m : Z) (l : location) : shr_m (shr_record_of_loc m l) = m.
Proof. now destruct l as [| []]. Qed.

Lemma loc_of_shr_of_loc (m : Z) (l : location) :
  loc_of_shr_record (shr_record_of_loc m l) = l.
Proof. now destruct l as [| []]. Qed.

Lemma binary_round_aux_steps (s : bool) (m e : Z) (l : location) :
  binary_round_aux Float32.prec Float32.emax s m e l
  = let '(mrs, e') := shr_fexp Float32.prec Float32.emax m e l in
    renormalize s (round_nearest_even (shr_m mrs) (loc_of_shr_record mrs)) e'.
Proof. unfold binary_round_aux, renormalize. now destruct (shr_fexp _ _ m e l). Qed.

Lemma renormalize_spec (s : bool) (mm e : Z) :
  2 ^ 23 <= mm <= 2 ^ 24 -> -149 <= e <= 103 ->
  exists m' e', renormalize s mm e = S754_finite s m' e'
                /\ e <= e' /\ Z.pos m' * 2 ^ (e' - e) = mm.
Proof.
  intros Hmm He. unfold renormalize.
  destruct (Z.eq_dec mm (2 ^ 24)) as [-> | Hne].
  - rewrite shr_fexp_1.
    2:{ change (Zdigits2 (2 ^ 24)) with 25. rewrite fexp_normal by lia. lia. }
    cbn [shr_record_of_loc]. change (shr_1 _) with (Build_shr_record (2 ^ 23) false false).
    cbn [shr_m]. change (2 ^ 23) with (Z.pos 8388608).
    destruct (Z.leb_spec (e + 1) (Float32.emax - Float32.prec)) as [_ | Hbad].
    2:{ unfold Float32.emax, Float32.prec in Hbad. lia. }
    exists 8388608%positive, (e + 1). repeat split; [lia |].
    replace (e + 1 - e) with 1 by lia. reflexivity.
  - destruct mm as [| m | m]; try (simpl in Hmm; lia).
    assert (Hd : Z.pos (digits2_pos m) = 24) by (apply digits2_pos_unique; lia).
    rewrite shr_fexp_0.
    2:{ cbn [Zdigits2]. rewrite fexp_normal by lia. lia. }
    cbn [shr_record_of_loc shr_m].
    destruct (Z.leb_spec e (Float32.emax - Float32.prec)) as [_ | Hbad].
    2:{ unfold Float32.emax, Float32.prec in Hbad. lia. }
    exists m, e. repeat split; [lia |]. rewrite Z.sub_diag. simpl. lia.
Qed.

Lemma round_nearest_even_bounds (q : Z) (l : location) :
  q <= round_nearest_even q l <= q + 1.
Proof. destruct l as [| []]; simpl; try destruct (Z.even q); lia. Qed.

Lemma binary_round_aux_spec (s : bool) (q e : Z) (l : location) :
  2 ^ 23 <= q < 2 ^ 25 -> -149 <= e <= 100 ->
  exists m' e',
    binary_round_aux Float32.prec Float32.emax s q e l = S754_finite s m' e'
    /\ e <= e' /\ Z.pos m' * 2 ^ (e' - e) = rounded q l.
Proof.
  intros Hq He. rewrite binary_round_aux_steps. unfold rounded.
  destruct q as [| p | p]; try (simpl in Hq; lia).
  destruct (Z.ltb_spec (Z.pos p) (2 ^ 24)) as [Hlt | Hge].
  - assert (Hd : Z.pos (digits2_pos p) = 24) by (apply digits2_pos_unique; lia).
    rewrite shr_fexp_0.
    2:{ cbn [Zdigits2]. rewrite fexp_normal by lia. lia. }
    rewrite shr_m_of_loc, loc_of_shr_of_loc.
    pose proof (round_nearest_even_bounds (Z.pos p) l).
    apply renormalize_spec; lia.
  - assert (Hd : Z.pos (digits2_pos p) = 25) by (apply digits2_pos_unique; lia).
    rewrite shr_fexp_1.
    2:{ cbn [Zdigits2]. rewrite fexp_normal by lia. lia. }
    assert (Hshift : exists p', Z.pos p = 2 * Z.pos p' + (if Z.odd (Z.pos p) then 1 else 0)
              /\ shr_m (shr_1 (shr_record_of_loc (Z.pos p) l)) = Z.pos p'
              /\ loc_of_shr_record (shr_1 (shr_record_of_loc (Z.pos p) l))
                 = shifted_loc (Z.odd (Z.pos p)) l).
    { destruct p as [p' | p' |]; [exists p' | exists p' | simpl in Hge; lia];
        (split; [simpl; lia |]); destruct l as [| []]; split; reflexivity. }
    destruct Hshift as (p' & Hp & -> & ->).
    assert (Hhalf : Z.pos p / 2 = Z.pos p').
    { symmetry. apply (Z.div_unique _ _ _ (if Z.odd (Z.pos p) then 1 else 0));
        [destruct (Z.odd (Z.pos p)); lia | lia]. }
    rewrite Hhalf.
    pose proof (round_nearest_even_bounds (Z.pos p') (shifted_loc (Z.odd (Z.pos p)) l)).
    destruct (renormalize_spec s
                (round_nearest_even (Z.pos p') (shifted_loc (Z.odd (Z.pos p)) l)) (e + 1))
      as (m' & e' & Hr & He' & Hv).
    { destruct (Z.odd (Z.pos p)); lia. } { lia. }
    exists m', e'. split; [exact Hr |]. split; [lia |].
    replace (e' - e) with (Z.succ (e' - (e + 1))) by lia.
    rewrite Z.pow_succ_r by lia. lia.
Qed.

Lemma rounded_exact (q : Z) : Z.even q = true -> rounded q loc_Exact = q.
Proof.
  intros Hev. unfold rounded. destruct (q <? 2 ^ 24); [reflexivity |].
  rewrite <- Z.negb_even, Hev. cbn [negb shifted_loc round_nearest_even].
  apply Z.even_spec in Hev. destruct Hev as [k ->].
  replace (2 * k / 2) with k; [reflexivity |].
  apply (Z.div_unique _ _ _ 0); lia.
Qed.

Lemma rounded_le (q : Z) (l : location) : rounded q l <= q + 1.
Proof.
  unfold rounded. destruct (q <? 2 ^ 24).
  - apply round_nearest_even_bounds.
  - pose proof (Z.div_mod q 2 ltac:(lia)) as Hdm. rewrite Zmod_odd in Hdm.
    destruct (Z.odd q); destruct l as [| []]; simpl;
      try destruct (Z.even (q / 2)); lia.
Qed.

Lemma rounded_ge (q : Z) (l : location) :
  q - 1 <= rounded q l /\ (l <> loc_Exact -> q <= rounded q l).
Proof.
  unfold rounded. destruct (q <? 2 ^ 24).
  - pose proof (round_nearest_even_bounds q l). lia.
  - pose proof (Z.div_mod q 2 ltac:(lia)) as Hdm. rewrite Zmod_odd in Hdm.
    destruct (Z.odd q); destruct l as [| []]; simpl;
      try destruct (Z.even (q / 2)); split; try lia; intros Hl; try lia;
      now contradiction Hl.
Qed.

Lemma new_location_exact (m r : Z) : new_location m r = loc_Exact <-> r = 0.
Proof.
  unfold new_location, new_location_even, new_location_odd.
  destruct (Z.even m); destruct (Z.eqb_spec r 0); split; intros H;
    try reflexivity; try assumption; try discriminate H; contradiction.
Qed.

(** [float(n)] of a positive integer below [2^24] is exact: a mantissa
    of 24 bits that is [n] shifted to the left. *)
Lemma of_size_t_normal (n : Z) :
  0 < n < 2 ^ 24 ->
  exists m e,
    Float32.of_size_t n = S754_finite false m e
    /\ Z.pos (digits2_pos m) = 24
    /\ -23 <= e <= 0
    /\ Z.pos m = n * 2 ^ (- e).
Proof.
  intros Hn. destruct n as [| p | p]; try lia.
  pose proof (digits2_pos_bounds p) as Hp.
  set (d := Z.pos (digits2_pos p)) in *.
  assert (Hd : 1 <= d <= 24).
  { split; [unfold d; lia |].
    destruct (Z.le_gt_cases d 24) as [H | H]; [exact H | exfalso].
    assert (2 ^ 24 <= 2 ^ (d - 1)) by (apply Z.pow_le_mono_r; lia). lia. }
  unfold Float32.of_size_t, binary_normalize, binary_round.
  fold d. replace (fexp Float32.prec Float32.emax (d + 0)) with (d - 24)
    by (unfold fexp, emin, Float32.prec, Float32.emax; lia).
  unfold shl_align.
  destruct (d - 24 - 0) as [| k | k] eqn:Hk; try lia.
  - (* already 24 bits *)
    assert (Hd24 : d = 24) by lia.
    exists p, 0. split; [| split; [exact Hd24 | split; [lia | simpl; lia]]].
    rewrite binary_round_aux_steps, shr_fexp_0.
    2:{ cbn [Zdigits2]. fold d. rewrite fexp_normal by lia. lia. }
    cbn [shr_record_of_loc shr_m loc_of_shr_record round_nearest_even].
    unfold renormalize. rewrite shr_fexp_0.
    2:{ cbn [Zdigits2]. fold d. rewrite fexp_normal by lia. lia. }
    reflexivity.
  - (* shifted to the left by 24 - d bits *)
    assert (Hkd : Z.pos k = 24 - d) by lia.
    pose proof (iter_xO_pow k p) as Hiter.
    set (m := Pos.iter xO p k) in *.
    assert (Hm : 2 ^ 23 <= Z.pos m < 2 ^ 24).
    { rewrite Hiter, Hkd.
      replace (2 ^ 23) with (2 ^ (d - 1) * 2 ^ (24 - d))
        by (rewrite <- Z.pow_add_r by lia; f_equal; lia).
      replace (2 ^ 24) with (2 ^ d * 2 ^ (24 - d))
        by (rewrite <- Z.pow_add_r by lia; f_equal; lia).
      assert (0 < 2 ^ (24 - d)) by (apply Z.pow_pos_nonneg; lia). nia. }
    assert (Hdm : Z.pos (digits2_pos m) = 24) by (apply digits2_pos_unique; lia).
    exists m, (d - 24). split; [| split; [exact Hdm | split; [lia |]]].
    + rewrite binary_round_aux_steps, shr_fexp_0.
      2:{ cbn [Zdigits2]. rewrite fexp_normal by lia. lia. }
      cbn [shr_record_of_loc shr_m loc_of_shr_record round_nearest_even].
      unfold renormalize. rewrite shr_fexp_0.
      2:{ cbn [Zdigits2]. rewrite fexp_normal by lia. lia. }
      cbn [shr_record_of_loc shr_m].
      destruct (Z.leb_spec (d - 24) (Float32.emax - Float32.prec)) as [_ | Hbad];
        [reflexivity | unfold Float32.emax, Float32.prec in Hbad; lia].
    + rewrite Hiter, Hkd. f_equal. f_equal. lia.
Qed.

Lemma div_core_normal (m1 m2 : positive) (e1 e2 : Z) :
  Z.pos (digits2_pos m1) = 24 -> Z.pos (digits2_pos m2) = 24 ->
  -125 <= e1 - e2 ->
  SFdiv_core_binary Float32.prec Float32.emax (Z.pos m1) e1 (Z.pos m2) e2
  = ((Z.pos m1 * 2 ^ 24) / Z.pos m2, e1 - e2 - 24,
     new_location (Z.pos m2) ((Z.pos m1 * 2 ^ 24) mod Z.pos m2)).
Proof.
  intros Hd1 Hd2 He. unfold SFdiv_core_binary. cbn [Zdigits2]. rewrite Hd1, Hd2.
  replace (Z.min (fexp Float32.prec Float32.emax (24 + e1 - (24 + e2))) (e1 - e2))
    with (e1 - e2 - 24)
    by (unfold fexp, emin, Float32.prec, Float32.emax; lia).
  replace (e1 - e2 - (e1 - e2 - 24)) with 24 by lia.
  cbv iota. rewrite Z.shiftl_mul_pow2 by lia.
  unfold Z.div, Z.modulo. now destruct (Z.div_eucl _ _).
Qed.

(** The integer ceiling of a binary32 value [m * 2^e] that lies in
    [((K - 1) * S, K * S]] when counted in units of [1 / S]. *)
Lemma ceil_to_size_t_spec (m : positive) (e e0 K : Z) :
  e0 <= e -> e0 < 0 ->
  (K - 1) * 2 ^ (- e0) < Z.pos m * 2 ^ (e - e0) <= K * 2 ^ (- e0) ->
  K < SIZE_MODULUS ->
  Float32.ceil_to_size_t (S754_finite false m e) = Some K.
Proof.
  intros He He0 HM HK. unfold Float32.ceil_to_size_t.
  assert (HS : 0 < 2 ^ (- e0)) by (apply Z.pow_pos_nonneg; lia).
  destruct (Z.leb_spec 0 e) as [Hpos | Hneg].
  - assert (Hv : Z.pos m * 2 ^ (e - e0) = Z.pos m * 2 ^ e * 2 ^ (- e0)).
    { replace (e - e0) with (e + - e0) by lia. rewrite Z.pow_add_r by lia. lia. }
    rewrite Hv in HM.
    assert (Z.pos m * 2 ^ e = K) by nia.
    destruct (Z.ltb_spec (Z.pos m * 2 ^ e) SIZE_MODULUS); [congruence | lia].
  - set (U := 2 ^ (- e)). set (V := 2 ^ (e - e0)) in *.
    assert (HU : 0 < U) by (apply Z.pow_pos_nonneg; lia).
    assert (HV : 0 < V) by (apply Z.pow_pos_nonneg; lia).
    assert (HSUV : 2 ^ (- e0) = U * V).
    { unfold U, V. rewrite <- Z.pow_add_r by lia. f_equal. lia. }
    rewrite HSUV in HM.
    assert (Hm : (K - 1) * U < Z.pos m <= K * U) by nia.
    assert (Hq : (Z.pos m + U - 1) / U = K).
    { symmetry. apply (Z.div_unique _ _ _ (Z.pos m + U - 1 - K * U)); lia. }
    rewrite Hq. destruct (Z.ltb_spec K SIZE_MODULUS); [reflexivity | lia].
Qed.

(** Below [2^24] the single-precision block size is the exact integer
    ceiling of [num_rows / num_blocks]. *)
Lemma block_size_exact (R n : Z) :
  0 <= R < 2 ^ 24 -> 0 < n < 2 ^ 24 ->
  DataSlice.block_size_of R n = Ok (ceil_div R n).
Proof.
  intros HR Hn. unfold DataSlice.block_size_of.
  destruct (of_size_t_normal n Hn) as (m2 & e2 & -> & Hd2 & He2 & Hm2).
  destruct (Z.eq_dec R 0) as [-> | HR0].
  { (* no rows *)
    change (Float32.of_size_t 0) with (S754_zero false).
    cbn [Float32.div SFdiv xorb Float32.ceil_to_size_t].
    unfold ceil_div. rewrite Z.div_small by lia. reflexivity. }
  destruct (of_size_t_normal R ltac:(lia)) as (m1 & e1 & -> & Hd1 & He1 & Hm1).
  unfold Float32.div, SFdiv. rewrite div_core_normal by (assumption || lia).
  cbn [xorb].
  set (A := Z.pos m1) in *. set (B := Z.pos m2) in *.
  set (T1 := 2 ^ (- e1)) in *. set (T2 := 2 ^ (- e2)) in *.
  set (S := 2 ^ (24 + e2 - e1)).
  assert (HT1 : 1 <= T1).
  { unfold T1. change 1 with (2 ^ 0). apply Z.pow_le_mono_r; lia. }
  assert (HT2 : 0 < T2) by (apply Z.pow_pos_nonneg; lia).
  assert (HS : 0 < S) by (apply Z.pow_pos_nonneg; lia).
  assert (HST : T1 * 2 ^ 24 = S * T2).
  { unfold T1, T2, S. rewrite <- !Z.pow_add_r by lia. f_equal. lia. }
  assert (HSeven : Z.even S = true /\ forall z, Z.even (z * S) = true).
  { assert (HS2 : S = 2 * 2 ^ (24 + e2 - e1 - 1)).
    { unfold S. rewrite <- Z.pow_succ_r by lia. f_equal. lia. }
    split; [| intros z]; rewrite ?Z.even_mul, HS2, Z.even_mul; simpl;
      now rewrite ?orb_true_r. }
  destruct HSeven as [_ HKS].
  pose proof (digits2_pos_bounds m2) as HB. rewrite Hd2 in HB. fold B in HB.
  assert (HSn : n < S).
  { assert (n * T2 < S * T2); [| nia].
    rewrite <- HST, <- Hm2. change (2 ^ 24) with 16777216 in *. nia. }
  set (X := R * S).
  assert (HAX : A * 2 ^ 24 = X * T2) by (unfold X; rewrite Hm1; nia).
  assert (Hq : A * 2 ^ 24 / B = X / n).
  { rewrite HAX, Hm2. apply Z.div_mul_cancel_r; lia. }
  assert (Hr : (A * 2 ^ 24) mod B = 0 <-> X mod n = 0).
  { rewrite HAX, Hm2, Z.mul_mod_distr_r by lia. nia. }
  rewrite Hq.
  set (q := X / n) in *.
  set (l := new_location B ((A * 2 ^ 24) mod B)).
  assert (Hl : l = loc_Exact <-> X mod n = 0).
  { unfold l. rewrite new_location_exact. exact Hr. }
  pose proof (ceil_div_bounds R n ltac:(lia) ltac:(lia)) as (HK0 & HKlo & HKhi).
  set (K := ceil_div R n) in *.
  pose proof (Z.div_mod X n ltac:(lia)) as HXdm.
  pose proof (Z.mod_pos_bound X n ltac:(lia)) as HXmod.
  fold q in HXdm.
  (* the quotient lies in ((K - 1) * S + 1, K * S) *)
  assert (Hqlo : (K - 1) * S + 1 <= q) by (unfold X in *; nia).
  assert (Hqhi : q <= K * S) by (unfold X in *; nia).
  assert (Hq23 : 2 ^ 23 <= q < 2 ^ 25).
  { pose proof (digits2_pos_bounds m1) as HA. rewrite Hd1 in HA. fold A in HA.
    rewrite <- Hq. change (24 - 1) with 23 in *.
    split.
    - apply Z.div_le_lower_bound; [lia |]. change (2 ^ 24) with 16777216 in *.
      change (2 ^ 23) with 8388608 in *. nia.
    - apply Z.div_lt_upper_bound; [lia |]. change (2 ^ 24) with 16777216 in *.
      change (2 ^ 23) with 8388608 in *. change (2 ^ 25) with 33554432. nia. }
  destruct (binary_round_aux_spec false q (e1 - e2 - 24) l Hq23 ltac:(lia))
    as (m' & e' & -> & He' & Hv).
  pose proof (rounded_le q l) as Hle.
  pose proof (rounded_ge q l) as [Hge1 Hge].
  assert (HM : (K - 1) * S < rounded q l <= K * S).
  { split.
    - destruct (Z.eq_dec (X mod n) 0) as [Hex | Hinex].
      + (* exact quotient *)
        assert ((K - 1) * S + 2 <= q) by (unfold X in *; nia). lia.
      + assert (l <> loc_Exact) by (rewrite Hl; exact Hinex).
        specialize (Hge ltac:(assumption)). lia.
    - destruct (Z.eq_dec q (K * S)) as [Heq | Hne]; [| lia].
      assert (Hex : X mod n = 0) by (unfold X in *; nia).
      apply Hl in Hex. rewrite Hex, rounded_exact; [lia |].
      rewrite Heq. apply HKS. }
  rewrite (ceil_to_size_t_spec m' e' (e1 - e2 - 24) K); [reflexivity | lia | lia | |].
  - replace (- (e1 - e2 - 24)) with (24 + e2 - e1) by lia. fold S.
    rewrite Hv. exact HM.
  - unfold SIZE_MODULUS. change (2 ^ 24) with 16777216 in *.
    change (2 ^ 64) with 18446744073709551616. nia.
Qed.

(** ** The partition of the rows *)





Lemma column_wf (values : list Z) :
  Z.of_nat (length values) < 2 ^ 32 ->
  nt_wf (column SyclHomogenNumericTableDouble values).
Proof.
  intros Hlen. unfold column. split; cbn [nt_cols nt_rows nt_data nt_type].
  - unfold SIZE_MODULUS. lia.
  - unfold SIZE_MODULUS. change (2 ^ 32) with 4294967296 in Hlen.
    change (2 ^ 64) with 18446744073709551616. lia.
  - unfold SIZE_MODULUS. change (2 ^ 32) with 4294967296 in Hlen.
    change (2 ^ 64) with 18446744073709551616. lia.
  - rewrite length_map. lia.
  - apply Forall_forall. intros d _. reflexivity.
Qed.




(** ** The values of a copied block *)

(** C10 (amended). Whatever the type of the new table, [copy_block]
    moves the elements through buffers of doubles.  The double read
    from the source at [(i * b + row, col)] is the value of the source
    (the conversion of its element type to and from double keeps it);
    the new table holds, at [(row, col)], that double converted to the
    element type of the new table, not of the source: the double itself
    for the double-precision type, its rounding to binary32 for the
    single-precision type.  The copy is exact when the new table is of
    the type of the source. *)
Theorem copy_block_through_double (w : world) (hx : handle) (src : NumericTable)
    (ty : NumericTableType) (i b : Z) :
  heap w !! hx = Some src ->
  nt_wf src ->
  ty <> OtherNumericTable ->
  0 <= i -> 0 <= b ->
  i * b <= nt_rows src ->
  i * b + b < SIZE_MODULUS ->
  allocates w ty (nt_cols src) (Z.min b (nt_rows src - i * b)) doAllocate = true ->
  exists (buffer : list double) (blk : NumericTable),
    buffer = rows_of (nt_cols src) (i * b) (Z.min b (nt_rows src - i * b)) (nt_data src)
    /\ DataSlice.copy_block (Some hx) ty i b w
       = (with_heap w (heap w ++ [blk]), Ok (Some (length (heap w))))
    /\ nt_type blk = ty
    /\ nt_data blk = map (store_as ty) buffer
    /\ (forall row col, 0 <= row < nt_rows blk -> 0 <= col < nt_cols blk ->
          exists d, nt_at src (i * b + row) col = Some d
                    /\ store_as (nt_type src) d = d
                    /\ nt_at blk row col = Some (store_as ty d)
                    /\ (ty = SyclHomogenNumericTableDouble -> store_as ty d = d)
                    /\ (ty = SyclHomogenNumericTableFloat ->
                          store_as ty d = to_float32 d)
                    /\ (ty = nt_type src -> nt_at blk row col = Some d)).
Proof.
  intros Hsrc Hwf Hty Hi Hb Hstart Hend Halloc.
  eexists _, (block_table src ty i b). split; [reflexivity |].
  split; [now apply copy_block_spec |].
  split; [reflexivity |]. split; [reflexivity |].
  intros row col Hrow Hcol.
  destruct (block_table_at src ty i b row col) as (d & Hd & Hblk); try assumption.
  assert (Hexact : store_as (nt_type src) d = d).
  { pose proof (wf_stored src Hwf) as Hstored. rewrite Forall_forall in Hstored.
    apply Hstored. apply list_elem_of_lookup. eexists. exact Hd. }
  exists d. split; [exact Hd |]. split; [exact Hexact |]. split; [exact Hblk |].
  split; [now intros -> |]. split; [now intros -> |].
  intros ->. now rewrite Hblk, Hexact.
Qed.

Lemma copy_block_through_double_witness :
  exists w' h blk,
    DataSlice.copy_block (Some 0%nat) SyclHomogenNumericTableFloat 1 2
      (world_of [column SyclHomogenNumericTableDouble [1; 2; 16777217; 4; 5]] no_file)
    = (w', Ok (Some h))
    /\ heap w' !! h = Some blk
    /\ nt_data blk = [double_of 16777216; double_of 4].
Proof.
  destruct (copy_block_through_double
              (world_of [column SyclHomogenNumericTableDouble [1; 2; 16777217; 4; 5]] no_file)
              0%nat (column SyclHomogenNumericTableDouble [1; 2; 16777217; 4; 5])
              SyclHomogenNumericTableFloat 1 2)
    as (buffer & blk & Hbuf & Hcopy & _ & Hdata & _).
  - reflexivity.
  - apply column_wf. vm_compute. reflexivity.
  - discriminate.
  - lia.
  - lia.
  - vm_compute. discriminate.
  - vm_compute. reflexivity.
  - vm_compute. reflexivity.
  - eexists _, _, blk. split; [exact Hcopy |]. split.
    + rewrite with_heap_heap. now apply list_lookup_middle.
    + rewrite Hdata, Hbuf. vm_compute. reflexivity.
Defined.

(** The first of two blocks of a double-precision table of five rows,
    copied as a single-precision table: 16777217 is a value of the
    element type of the source, which its conversion to and from double
    keeps, and the block holds 16777216. *)
Lemma double_source_narrowed :
  let w := world_of [column SyclHomogenNumericTableDouble [1; 2; 16777217; 4; 5]]
             no_file in
  DataSlice.block_size_of 5 2 = Ok 3
  /\ nt_data <$> heap (fst (DataSlice.copy_block (Some 0%nat)
                              SyclHomogenNumericTableFloat 0 3 w)) !! 1%nat
     = Some (map double_of [1; 2; 16777216])
  /\ store_as SyclHomogenNumericTableDouble (double_of 16777217) = double_of 16777217
  /\ ~ exact_up_to_source_type w 0 SyclHomogenNumericTableFloat 0 3.
Proof.
  intros w.
  assert (Hheap : heap (fst (DataSlice.copy_block (Some 0%nat)
                               SyclHomogenNumericTableFloat 0 3 w))
                  = [column SyclHomogenNumericTableDouble [1; 2; 16777217; 4; 5];
                     column SyclHomogenNumericTableFloat [1; 2; 16777216]])
    by (vm_compute; reflexivity).
  split; [vm_compute; reflexivity |].
  split; [rewrite Hheap; vm_compute; reflexivity |].
  split; [reflexivity |].
  intros (src & w' & h & blk & Hsrc & Hcopy & Hblk & Hat).
  injection Hsrc as <-.
  pose proof (f_equal snd Hcopy) as Hh. vm_compute in Hh. injection Hh as <-.
  rewrite Hcopy in Hheap. cbn [fst] in Hheap. rewrite Hheap in Hblk.
  injection Hblk as <-.
  destruct (Hat 2 0) as (d & Hd1 & Hd2); [vm_compute; split; congruence .. |].
  vm_compute in Hd1, Hd2. congruence.
Qed.

(** A double table copied into a single-precision block: 16777217 is not
    a binary32 value and reads back as 16777216. *)
Lemma double_into_float_block :
  let w := world_of [column SyclHomogenNumericTableDouble [16777217; 1]] no_file in
  heap (fst (DataSlice.copy_block (Some 0%nat) SyclHomogenNumericTableFloat 0 1 w))
  = [column SyclHomogenNumericTableDouble [16777217; 1];
     column SyclHomogenNumericTableFloat [16777216]]
  /\ ~ copies_exactly w 0 SyclHomogenNumericTableFloat 0 1.
Proof.
  intros w.
  assert (Hheap : heap (fst (DataSlice.copy_block (Some 0%nat)
                               SyclHomogenNumericTableFloat 0 1 w))
                  = [column SyclHomogenNumericTableDouble [16777217; 1];
                     column SyclHomogenNumericTableFloat [16777216]])
    by (vm_compute; reflexivity).
  split; [exact Hheap |].
  intros (src & w' & h & blk & Hsrc & Hcopy & Hblk & Hat).
  injection Hsrc as <-.
  pose proof (f_equal snd Hcopy) as Hh. vm_compute in Hh. injection Hh as <-.
  rewrite Hcopy in Hheap. cbn [fst] in Hheap. rewrite Hheap in Hblk.
  injection Hblk as <-.
  destruct (Hat 0 0) as (d & Hd1 & Hd2); [vm_compute; split; congruence .. |].
  vm_compute in Hd1, Hd2. congruence.
Qed.

(** C2 (amended). When the block starts inside the source
    ([i * b <= num_rows], without overflow of [i * b + b]), the backend
    allocates it, and every value of the source is representable in the
    element type of the new table (always so for the double-precision
    type, and for a source of the single-precision type), [copy_block]
    returns a new table of [min (b, num_rows - i * b)] rows and as many
    columns as the source which reads back, at each [(row, col)], the
    value of the source at [(i * b + row, col)]; the source is left as
    it was. *)
Theorem copy_block_round_trip (w : world) (hx : handle) (src : NumericTable)
    (ty : NumericTableType) (i b : Z) :
  heap w !! hx = Some src ->
  nt_wf src ->
  ty <> OtherNumericTable ->
  0 <= i -> 0 <= b ->
  i * b <= nt_rows src ->
  i * b + b < SIZE_MODULUS ->
  allocates w ty (nt_cols src) (Z.min b (nt_rows src - i * b)) doAllocate = true ->
  Forall (fun d => store_as ty d = d) (nt_data src) ->
  copies_exactly w hx ty i b
  /\ exists w' h blk,
       DataSlice.copy_block (Some hx) ty i b w = (w', Ok (Some h))
       /\ heap w' !! h = Some blk
       /\ h <> hx
       /\ heap w' !! hx = Some src
       /\ nt_cols blk = nt_cols src
       /\ nt_rows blk = Z.min b (nt_rows src - i * b).
Proof.
  intros Hsrc Hwf Hty Hi Hb Hstart Hend Halloc Hstored.
  pose proof (copy_block_spec w hx src ty i b Hsrc Hwf Hty Hi Hb Hstart Hend Halloc)
    as Hcopy.
  pose proof (lookup_lt_Some _ _ _ Hsrc) as Hhx.
  assert (Hnew : (heap w ++ [block_table src ty i b]) !! length (heap w)
                 = Some (block_table src ty i b)) by now apply list_lookup_middle.
  split.
  - exists src, (with_heap w (heap w ++ [block_table src ty i b])), (length (heap w)),
      (block_table src ty i b).
    split; [exact Hsrc |]. split; [exact Hcopy |]. split; [exact Hnew |].
    intros row col Hrow Hcol.
    destruct (block_table_at src ty i b row col) as (d & Hd & Hblk); try assumption.
    exists d. split; [| exact Hd]. rewrite Hblk. f_equal.
    rewrite Forall_forall in Hstored. apply Hstored.
    apply list_elem_of_lookup. eexists. exact Hd.
  - exists (with_heap w (heap w ++ [block_table src ty i b])), (length (heap w)),
      (block_table src ty i b).
    split; [exact Hcopy |]. split; [exact Hnew |]. split; [lia |].
    split; [| split; reflexivity].
    rewrite with_heap_heap, lookup_app_l by exact Hhx. exact Hsrc.
Qed.

Lemma copy_block_round_trip_witness :
  copies_exactly
    (world_of [column SyclHomogenNumericTableDouble [1; 2; 16777217; 4; 5]] no_file)
    0 SyclHomogenNumericTableDouble 1 2.
Proof.
  apply (copy_block_round_trip
           (world_of [column SyclHomogenNumericTableDouble [1; 2; 16777217; 4; 5]] no_file)
           0%nat (column SyclHomogenNumericTableDouble [1; 2; 16777217; 4; 5])
           SyclHomogenNumericTableDouble 1 2).
  - reflexivity.
  - apply column_wf. vm_compute. reflexivity.
  - discriminate.
  - lia.
  - lia.
  - vm_compute. discriminate.
  - vm_compute. reflexivity.
  - vm_compute. reflexivity.
  - apply Forall_forall. intros d _. reflexivity.
Defined.

(** ** Runs of the loader *)

Lemma labeled_load_needs_feature_count_witness :
  exists msg,
    DatasetFromCsv.load_slice example_declarations
      (DatasetFromCsv.mk "" "train.csv" "" "" 0 1 1 1 true "")
      "train.csv" SyclHomogenNumericTableFloat (world_of [] any_file)
    = (world_of [] any_file, Throw (CannotLoadDataset msg)).
Proof.
  destruct (labeled_load_needs_feature_count example_declarations
              (DatasetFromCsv.mk "" "train.csv" "" "" 0 1 1 1 true "")
              "train.csv" SyclHomogenNumericTableFloat (world_of [] any_file))
    as (msg & Hload & _).
  - reflexivity.
  - simpl. lia.
  - reflexivity.
  - discriminate.
  - reflexivity.
  - exists msg. exact Hload.
Defined.

Lemma unset_or_unopenable_path_witness :
  exists msg,
    DatasetFromCsv.load example_declarations
      (DatasetFromCsv.mk "" "missing.csv" "" "" 3 1 1 1 true "check the path")
      SyclHomogenNumericTableFloat (world_of [] no_file)
    = (world_of [] no_file, Throw (CannotOpenFile msg))
    /\ contains "missing.csv" msg
    /\ contains "check the path" msg.
Proof.
  destruct (unset_or_unopenable_path example_declarations
              (DatasetFromCsv.mk "" "missing.csv" "" "" 3 1 1 1 true "check the path")
              SyclHomogenNumericTableFloat (world_of [] no_file)
              join_with_blanks_contains)
    as (_ & _ & _ & Hload).
  apply Hload.
  - discriminate.
  - reflexivity.
Defined.

(** ** Labeled slices *)








(** ** The block size in single precision *)

(** X1. Below [2^24] rows and blocks, the block size that [initialize]
    computes in single precision is exactly
    [ceil (num_rows / num_blocks)]. *)
Theorem single_precision_block_size (num_rows num_blocks : Z) :
  0 <= num_rows < 2 ^ 24 -> 0 < num_blocks < 2 ^ 24 ->
  DataSlice.block_size_of num_rows num_blocks = Ok (ceil_div num_rows num_blocks).
Proof. exact (block_size_exact num_rows num_blocks). Qed.

Lemma single_precision_block_size_witness :
  DataSlice.block_size_of 16777213 7 = Ok (ceil_div 16777213 7).
Proof.
  apply (single_precision_block_size 16777213 7); vm_compute; split; congruence.
Defined.

(** X3. Above [2^24] the quotient rounds: 16777217 rows in two blocks
    give blocks of 8388608 rows, which leave the last row out. *)
Lemma block_size_rounds :
  DataSlice.block_size_of 16777217 2 = Ok 8388608
  /\ ceil_div 16777217 2 = 8388609
  /\ 2 * 8388608 < 16777217.
Proof. repeat split. Qed.

Lemma xy_blocks_populated_witness :
  DataSlice.xy_blocks (DataSlice.mk [Some 1%nat; Some 3%nat] [Some 2%nat; Some 4%nat] true) 1
  = Ok (mkMerged 3%nat 4%nat).
Proof.
  apply (xy_blocks_populated
           (DataSlice.mk [Some 1%nat; Some 3%nat] [Some 2%nat; Some 4%nat] true) 1);
    reflexivity.
Defined.

(** * What the code does besides *)

(** ** What a returning call has done *)

(** A [copy_block] that returns has appended one table of the requested
    type to the heap and returns its handle. *)
Lemma copy_block_ok_inv (p : option nat) (ty : NumericTableType) (i b : Z)
    (w w' : world) (r : option nat) :
  DataSlice.copy_block p ty i b w = (w', Ok r) ->
  exists hx src t,
    p = Some hx /\ heap w !! hx = Some src
    /\ w' = with_heap w (heap w ++ [t])
    /\ r = Some (length (heap w))
    /\ nt_type t = ty /\ nt_cols t = nt_cols src.
Proof.
  unfold DataSlice.copy_block, bind, deref.
  destruct p as [hx |]; [| discriminate].
  destruct (heap w !! hx) as [src |] eqn:Hsrc; [| discriminate].
  unfold create_numeric_table.
  set (rows := to_size_t ((if nt_rows src <? to_size_t (to_size_t (i * b) + b)
                           then nt_rows src else to_size_t (to_size_t (i * b) + b))
                          - to_size_t (i * b))).
  assert (Hty : ty = OtherNumericTable \/
                forall (A : Type) (x y : A),
                  match ty with
                  | SyclHomogenNumericTableFloat | SyclHomogenNumericTableDouble => x
                  | OtherNumericTable => y
                  end = x).
  { destruct ty; [right | right | left]; reflexivity. }
  destruct Hty as [-> | Hty]; [discriminate |].
  rewrite Hty.
  destruct (allocates w ty (nt_cols src) rows doAllocate); [| discriminate].
  rewrite with_heap_heap, list_lookup_middle by reflexivity.
  unfold lift. destruct (std_copy _ _ _ _) as [written | |]; try discriminate.
  unfold releaseBlockOfRows. rewrite with_heap_heap, list_lookup_middle by reflexivity.
  unfold ret. rewrite with_heap_twice. intros [= <- <-].
  eexists hx, src, _. split; [reflexivity |]. split; [exact Hsrc |].
  split.
  { f_equal. replace (length (heap w)) with (length (heap w) + 0)%nat at 1 by lia.
    rewrite insert_app_r. reflexivity. }
  repeat split.
Qed.

Lemma vec_set_ok_inv {A} (v v' : list A) (i : Z) (a : A) :
  vec_set v i a = Ok v' ->
  (Z.to_nat i < length v)%nat /\ v' = <[Z.to_nat i := a]> v.
Proof.
  unfold vec_set. destruct (decide _) as [Hlt | _]; [| discriminate].
  intros [= <-]. now split.
Qed.

Lemma lift_ok_inv {A} (o : outcome A) (w w' : world) (a : A) :
  lift o w = (w', Ok a) -> w' = w /\ o = Ok a.
Proof. unfold lift. intros [= <- ->]. now split. Qed.

(** A [set_block] that returns has appended the feature block, and the
    label block when there is a label table, and stored their handles at
    the index of the block. *)
Lemma set_block_ok_inv (i b : Z) (x y : option nat) (ty : NumericTableType)
    (s s' : DataSlice.t) (w w' : world) :
  DataSlice.set_block i b x y ty s w = (w', Ok s') ->
  exists new,
    w' = with_heap w (heap w ++ new)
    /\ (Z.to_nat i < length (DataSlice.x_blocks_ s))%nat
    /\ DataSlice.x_blocks_ s'
       = <[Z.to_nat i := Some (length (heap w))]> (DataSlice.x_blocks_ s)
    /\ DataSlice.labeled_ s' = DataSlice.labeled_ s
    /\ match y with
       | None => DataSlice.y_blocks_ s' = DataSlice.y_blocks_ s /\ length new = 1%nat
       | Some _ =>
           (Z.to_nat i < length (DataSlice.y_blocks_ s))%nat
           /\ DataSlice.y_blocks_ s'
              = <[Z.to_nat i := Some (S (length (heap w)))]> (DataSlice.y_blocks_ s)
           /\ length new = 2%nat
       end.
Proof.
  unfold DataSlice.set_block. intros H.
  apply bind_ok in H as (w1 & xb & Hx & H).
  apply copy_block_ok_inv in Hx as (hx & src & t & -> & Hsrc & -> & -> & _ & _).
  apply bind_ok in H as (w2 & xs & Hxs & H).
  apply lift_ok_inv in Hxs as [-> Hxs]. apply vec_set_ok_inv in Hxs as [Hi ->].
  destruct y as [hy |].
  - apply bind_ok in H as (w3 & yb & Hy & H).
    apply copy_block_ok_inv in Hy as (hy' & srcy & ty' & _ & _ & -> & -> & _ & _).
    apply bind_ok in H as (w4 & ys & Hys & H).
    apply lift_ok_inv in Hys as [-> Hys]. apply vec_set_ok_inv in Hys as [Hiy ->].
    unfold ret in H. injection H as <- <-.
    exists [t; ty']. rewrite with_heap_twice, <- app_assoc.
    cbn [DataSlice.x_blocks_ DataSlice.y_blocks_ DataSlice.labeled_].
    repeat split; try assumption.
    rewrite length_app. cbn [length]. do 2 f_equal. lia.
  - unfold ret in H. injection H as <- <-.
    exists [t]. cbn [DataSlice.x_blocks_ DataSlice.y_blocks_ DataSlice.labeled_].
    repeat split; assumption.
Qed.

(** What holds of every state a returning loop has gone through holds of
    the state it ends in. *)
Lemma for_blocks_ok_rule (P : nat -> world -> DataSlice.t -> Prop)
    (body : Z -> DataSlice.t -> M DataSlice.t) (n : nat) :
  (forall j w s w' s', (j < n)%nat -> P j w s ->
     body (Z.of_nat j) s w = (w', Ok s') -> P (S j) w' s') ->
  forall w s w' s', P 0%nat w s ->
    DataSlice.for_blocks n 0 body s w = (w', Ok s') -> P n w' s'.
Proof.
  intros Hbody.
  assert (Hgen : forall k j, (j + k = n)%nat -> forall w s w' s', P j w s ->
            DataSlice.for_blocks k (Z.of_nat j) body s w = (w', Ok s') -> P n w' s').
  { induction k as [| k IH]; intros j Hjk w s w' s' HP Hrun.
    - unfold DataSlice.for_blocks, ret in Hrun. injection Hrun as <- <-.
      now replace n with j by lia.
    - cbn [DataSlice.for_blocks] in Hrun.
      apply bind_ok in Hrun as (w1 & s1 & Hstep & Hrest).
      replace (Z.of_nat j + 1) with (Z.of_nat (S j)) in Hrest by lia.
      apply (IH (S j) ltac:(lia) w1 s1 w' s'); [| exact Hrest].
      apply (Hbody j w s); [lia | exact HP | exact Hstep]. }
  intros w s w' s' HP Hrun. exact (Hgen n 0%nat ltac:(lia) w s w' s' HP Hrun).
Qed.

(** No block size for zero blocks: the quotient is an infinity or a NaN,
    which has no conversion to [size_t]. *)
Lemma block_size_zero_blocks (num_rows : Z) :
  DataSlice.block_size_of num_rows 0 = Undefined.
Proof.
  unfold DataSlice.block_size_of. change (Float32.of_size_t 0) with (S754_zero false).
  now destruct (Float32.of_size_t num_rows).
Qed.

Lemma deref_ok_inv (p : option nat) (w w' : world) (t : NumericTable) :
  deref p w = (w', Ok t) -> w' = w /\ exists h, p = Some h /\ heap w !! h = Some t.
Proof.
  unfold deref. destruct p as [h |]; [| discriminate].
  destruct (heap w !! h) as [t0 |] eqn:Hh; [| discriminate].
  intros [= <- <-]. split; [reflexivity |]. now exists h.
Qed.

(** One more turn of the loop of [initialize]: one more block is a new
    table. *)
Lemma blocks_fresh_step (w : world) (n : nat) (b : Z) (x y : option nat)
    (ty : NumericTableType) (j : nat) (w1 w2 : world) (s1 s2 : DataSlice.t) :
  blocks_fresh w n (bool_decide (y <> None)) j w1 s1 ->
  DataSlice.set_block (Z.of_nat j) b x y ty s1 w1 = (w2, Ok s2) ->
  blocks_fresh w n (bool_decide (y <> None)) (S j) w2 s2
  /\ DataSlice.labeled_ s2 = DataSlice.labeled_ s1
  /\ (y = None -> DataSlice.y_blocks_ s2 = DataSlice.y_blocks_ s1).
Proof.
  intros ([new1 ->] & Hlen & Hx & Hy) Hset.
  apply set_block_ok_inv in Hset as (new & -> & Hj & Hxs & Hlab & Hys).
  rewrite Nat2Z.id in *. rewrite with_heap_heap, with_heap_twice in *.
  assert (Hnew : (1 <= length new)%nat) by (destruct y; lia).
  split; [| split; [exact Hlab | destruct y; [discriminate | tauto]]].
  split; [exists (new1 ++ new); now rewrite app_assoc |].
  split; [now rewrite Hxs, length_insert |].
  split.
  - intros i Hi. rewrite Hxs. destruct (decide (i = j)) as [-> | Hne].
    + rewrite list_lookup_insert_eq by lia. eexists. split; [reflexivity |].
      rewrite ?with_heap_heap, !length_app. lia.
    + rewrite list_lookup_insert_ne by lia.
      destruct (Hx i ltac:(lia)) as (h & Hh & Hrange). exists h. split; [exact Hh |].
      rewrite ?with_heap_heap, !length_app in *. lia.
  - intros Hlabels. destruct y as [hy |]; [| now rewrite bool_decide_eq_true in Hlabels].
    destruct (Hy Hlabels) as [Hleny Hyi]. destruct Hys as (Hjy & Hys & Hnew2).
    split; [now rewrite Hys, length_insert |].
    intros i Hi. rewrite Hys. destruct (decide (i = j)) as [-> | Hne].
    + rewrite list_lookup_insert_eq by lia. eexists. split; [reflexivity |].
      rewrite ?with_heap_heap, !length_app. lia.
    + rewrite list_lookup_insert_ne by lia.
      destruct (Hyi i ltac:(lia)) as (h & Hh & Hrange). exists h. split; [exact Hh |].
      rewrite ?with_heap_heap, !length_app in *. lia.
Qed.

(** What [initialize] has done when it returns, for more than one
    block. *)
Lemma initialize_ok_inv (ty : NumericTableType) (num_blocks : Z) (x y : option nat)
    (s0 s : DataSlice.t) (w w' : world) :
  num_blocks <> 1 -> 0 <= num_blocks ->
  length (DataSlice.x_blocks_ s0) = Z.to_nat num_blocks ->
  (y <> None -> length (DataSlice.y_blocks_ s0) = Z.to_nat num_blocks) ->
  DataSlice.initialize ty num_blocks x y s0 w = (w', Ok s) ->
  num_blocks <> 0
  /\ blocks_fresh w (Z.to_nat num_blocks) (bool_decide (y <> None))
       (Z.to_nat num_blocks) w' s
  /\ DataSlice.labeled_ s = DataSlice.labeled_ s0
  /\ (y = None -> DataSlice.y_blocks_ s = DataSlice.y_blocks_ s0)
  /\ exists hx src, x = Some hx /\ heap w !! hx = Some src.
Proof.
  intros Hn1 Hn0 Hlenx Hleny. unfold DataSlice.initialize.
  destruct (Z.eqb_spec num_blocks 1) as [H1 | _]; [contradiction |].
  intros H. apply bind_ok in H as (w1 & tx & Hderef & H).
  apply deref_ok_inv in Hderef as [-> (hx & -> & Hsrc)].
  apply bind_ok in H as (w2 & bsz & Hsize & H).
  apply lift_ok_inv in Hsize as [-> Hsize].
  assert (Hnz : num_blocks <> 0).
  { intros ->. rewrite block_size_zero_blocks in Hsize. discriminate Hsize. }
  split; [exact Hnz |].
  pose (P := fun (j : nat) (w1 : world) (s1 : DataSlice.t) =>
    blocks_fresh w (Z.to_nat num_blocks) (bool_decide (y <> None)) j w1 s1
    /\ DataSlice.labeled_ s1 = DataSlice.labeled_ s0
    /\ (y = None -> DataSlice.y_blocks_ s1 = DataSlice.y_blocks_ s0)).
  assert (HP : P (Z.to_nat num_blocks) w' s).
  { refine (for_blocks_ok_rule P _ _ _ w s0 w' s _ H).
    - intros j wa sa wb sb Hj (Hfresh & Hlab & Hy) Hstep.
      destruct (blocks_fresh_step _ _ _ _ _ _ _ _ _ _ _ Hfresh Hstep)
        as (Hfresh' & Hlab' & Hy').
      split; [exact Hfresh' |]. split; [congruence |].
      intros Hnone. rewrite (Hy' Hnone). now apply Hy.
    - split; [| split; [reflexivity | reflexivity]].
      split; [exists []; rewrite app_nil_r; now destruct w |].
      split; [exact Hlenx |]. split; [intros i Hi; lia |].
      intros Hlabels. rewrite bool_decide_eq_true in Hlabels.
      split; [now apply Hleny | intros i Hi; lia]. }
  destruct HP as (Hfresh & Hlab & Hy).
  split; [exact Hfresh |]. split; [exact Hlab |]. split; [exact Hy |].
  now exists hx, tx.
Qed.

(** The shape of a slice a constructor returns. *)
Lemma make_x_shape (x : option nat) (num_blocks : Z) (ty : NumericTableType)
    (w w' : world) (s : DataSlice.t) :
  0 <= num_blocks ->
  DataSlice.make_x x num_blocks ty w = (w', Ok s) ->
  1 <= num_blocks
  /\ length (DataSlice.x_blocks_ s) = Z.to_nat num_blocks
  /\ DataSlice.y_blocks_ s = []
  /\ DataSlice.labeled_ s = false.
Proof.
  intros Hn Hmake. unfold DataSlice.make_x in Hmake.
  destruct (Z.eq_dec num_blocks 1) as [-> | Hn1].
  - cbv in Hmake. injection Hmake as <- <-. repeat split. lia.
  - apply initialize_ok_inv in Hmake as (Hnz & Hfresh & Hlab & Hy & _);
      [| assumption | assumption | apply length_replicate | intros H; now contradiction H].
    destruct Hfresh as (_ & Hlen & _).
    repeat split; [lia | exact Hlen | now apply Hy | exact Hlab].
Qed.

Lemma make_xy_shape (x y : option nat) (num_blocks : Z) (ty : NumericTableType)
    (w w' : world) (s : DataSlice.t) :
  0 <= num_blocks ->
  DataSlice.make_xy x y num_blocks ty w = (w', Ok s) ->
  1 <= num_blocks
  /\ length (DataSlice.x_blocks_ s) = Z.to_nat num_blocks
  /\ length (DataSlice.y_blocks_ s) = Z.to_nat num_blocks
  /\ DataSlice.labeled_ s = true.
Proof.
  intros Hn Hmake. unfold DataSlice.make_xy in Hmake.
  destruct (Z.eq_dec num_blocks 1) as [-> | Hn1].
  - destruct y; cbv in Hmake; injection Hmake as <- <-; repeat split; lia.
  - apply initialize_ok_inv in Hmake as (Hnz & Hfresh & Hlab & Hy & _);
      [| assumption | assumption | apply length_replicate
       | intros _; apply length_replicate].
    destruct Hfresh as (_ & Hlen & _ & Hlabels).
    split; [lia |]. split; [exact Hlen |]. split; [| exact Hlab].
    destruct y as [hy |].
    + now destruct (Hlabels ltac:(now rewrite bool_decide_eq_true)).
    + rewrite (Hy eq_refl). apply length_replicate.
Qed.

Lemma empty_of_lengths (s : DataSlice.t) (n : nat) :
  (1 <= n)%nat ->
  length (DataSlice.x_blocks_ s) = n ->
  (DataSlice.labeled_ s = true -> length (DataSlice.y_blocks_ s) = n) ->
  DataSlice.empty s = false.
Proof.
  intros Hn Hx Hy. unfold DataSlice.empty.
  destruct (DataSlice.x_blocks_ s) as [| px xs]; [simpl in Hx; lia |].
  destruct (DataSlice.labeled_ s); [| reflexivity].
  specialize (Hy eq_refl).
  destruct (DataSlice.y_blocks_ s); [simpl in Hy; lia | reflexivity].
Qed.

(** X5. Every slice a constructor returns has exactly [num_blocks]
    feature blocks ([num_blocks >= 1]) and is not empty.  An unlabeled
    one has no label blocks, so that [y()], [y_block(i)] and [xy()]
    throw [EmptyNumericTable] on it; a labeled one has as many label
    blocks as feature blocks. *)
Theorem constructed_slice_shape (x y : option nat) (num_blocks : Z)
    (ty : NumericTableType) (w : world) :
  0 <= num_blocks ->
  (forall w' s, DataSlice.make_x x num_blocks ty w = (w', Ok s) ->
     1 <= num_blocks
     /\ Z.of_nat (length (DataSlice.x_blocks_ s)) = num_blocks
     /\ DataSlice.y_blocks_ s = []
     /\ DataSlice.labeled_ s = false
     /\ DataSlice.empty s = false
     /\ DataSlice.y s = Throw (EmptyNumericTable "Dataset does not contain Y slice")
     /\ DataSlice.xy s
        = Throw (EmptyNumericTable "Dataset does not contain either X or Y slices")
     /\ forall i, DataSlice.y_block s i
                  = Throw (EmptyNumericTable "Dataset does not contain Y slice"))
  /\ (forall w' s, DataSlice.make_xy x y num_blocks ty w = (w', Ok s) ->
     1 <= num_blocks
     /\ Z.of_nat (length (DataSlice.x_blocks_ s)) = num_blocks
     /\ length (DataSlice.y_blocks_ s) = length (DataSlice.x_blocks_ s)
     /\ DataSlice.labeled_ s = true
     /\ DataSlice.empty s = false).
Proof.
  intros Hn. split; intros w' s Hmake.
  - apply make_x_shape in Hmake as (H1 & Hlen & Hy & Hlab); [| exact Hn].
    split; [exact H1 |]. split; [lia |]. split; [exact Hy |]. split; [exact Hlab |].
    split.
    { apply (empty_of_lengths s (Z.to_nat num_blocks)); [lia | exact Hlen |].
      rewrite Hlab. discriminate. }
    unfold DataSlice.y, DataSlice.xy, DataSlice.y_block. rewrite Hy. cbn [vec_empty].
    rewrite orb_true_r. repeat split.
  - apply make_xy_shape in Hmake as (H1 & Hlenx & Hleny & Hlab); [| exact Hn].
    split; [exact H1 |]. split; [lia |]. split; [congruence |]. split; [exact Hlab |].
    apply (empty_of_lengths s (Z.to_nat num_blocks)); [lia | exact Hlenx |].
    intros _. exact Hleny.
Qed.

Lemma run_result {A} (m : M A) (w : world) (a : A) :
  snd (m w) = Ok a -> m w = (fst (m w), Ok a).
Proof. destruct (m w) as [w' o]. simpl. now intros ->. Qed.

Lemma constructed_slice_shape_witness :
  DataSlice.xy (DataSlice.mk [Some 1%nat; Some 2%nat] [] false)
  = Throw (EmptyNumericTable "Dataset does not contain either X or Y slices").
Proof.
  pose (w := world_of [column SyclHomogenNumericTableDouble [1; 2; 3; 4; 5]] no_file).
  assert (Hrun : DataSlice.make_x (Some 0%nat) 2 SyclHomogenNumericTableDouble w
                 = (fst (DataSlice.make_x (Some 0%nat) 2 SyclHomogenNumericTableDouble w),
                    Ok (DataSlice.mk [Some 1%nat; Some 2%nat] [] false)))
    by (apply run_result; vm_compute; reflexivity).
  destruct (constructed_slice_shape (Some 0%nat) None 2 SyclHomogenNumericTableDouble w
              ltac:(lia)) as [Hx _].
  destruct (Hx _ _ Hrun) as (_ & _ & _ & _ & _ & _ & Hxy & _).
  exact Hxy.
Defined.

Lemma blocks_fresh_frame w n labels j w' s h t :
  blocks_fresh w n labels j w' s ->
  heap w !! h = Some t -> heap w' !! h = Some t.
Proof.
  intros ((new & ->) & _) Hh. rewrite with_heap_heap.
  rewrite lookup_app_l by (eapply lookup_lt_Some; eauto). exact Hh.
Qed.

Lemma x_block_of_lookup (s : DataSlice.t) (i : Z) (h : nat) :
  DataSlice.x_blocks_ s !! Z.to_nat i = Some (Some h) ->
  DataSlice.x_block s i = Ok (Some h).
Proof.
  intros H. unfold DataSlice.x_block.
  destruct (DataSlice.x_blocks_ s) as [| p v] eqn:E; [discriminate |].
  cbn [vec_empty]. now rewrite (vec_at_lookup _ _ _ H).
Qed.

Lemma y_block_of_lookup (s : DataSlice.t) (i : Z) (h : nat) :
  DataSlice.y_blocks_ s !! Z.to_nat i = Some (Some h) ->
  DataSlice.y_block s i = Ok (Some h).
Proof.
  intros H. unfold DataSlice.y_block.
  destruct (DataSlice.y_blocks_ s) as [| p v] eqn:E; [discriminate |].
  cbn [vec_empty]. now rewrite (vec_at_lookup _ _ _ H).
Qed.

Lemma fresh_handle (w w' : world) (h : nat) :
  (length (heap w) <= h < length (heap w'))%nat ->
  heap w !! h = None /\ is_Some (heap w' !! h).
Proof.
  intros [Hlo Hhi]. split.
  - now apply lookup_ge_None_2.
  - now apply lookup_lt_is_Some_2.
Qed.

(** X6. A slice built with [num_blocks != 1] holds only tables of its
    own: every table that existed before the construction is still
    there, unchanged, and every feature block (and, for a labeled slice
    built from a label table, every label block) is the handle of a
    table that did not exist before. *)
Theorem constructed_blocks_are_fresh (x y : option nat) (num_blocks : Z)
    (ty : NumericTableType) (w : world) :
  0 <= num_blocks -> num_blocks <> 1 ->
  (forall w' s, DataSlice.make_x x num_blocks ty w = (w', Ok s) ->
     (forall h t, heap w !! h = Some t -> heap w' !! h = Some t)
     /\ forall i, 0 <= i < num_blocks ->
          exists h, DataSlice.x_block s i = Ok (Some h)
                    /\ heap w !! h = None /\ is_Some (heap w' !! h))
  /\ (forall w' s, DataSlice.make_xy x y num_blocks ty w = (w', Ok s) ->
     (forall h t, heap w !! h = Some t -> heap w' !! h = Some t)
     /\ forall i, 0 <= i < num_blocks ->
          (exists h, DataSlice.x_block s i = Ok (Some h)
                     /\ heap w !! h = None /\ is_Some (heap w' !! h))
          /\ (y <> None ->
              exists h, DataSlice.y_block s i = Ok (Some h)
                        /\ heap w !! h = None /\ is_Some (heap w' !! h))).
Proof.
  intros Hn H1. split; intros w' s Hmake.
  - unfold DataSlice.make_x in Hmake.
    apply initialize_ok_inv in Hmake as (_ & Hfresh & _); cycle 1.
    { exact H1. } { exact Hn. } { apply length_replicate. } { congruence. }
    split; [intros h t; eapply blocks_fresh_frame; eauto |].
    intros i Hi. destruct Hfresh as (_ & _ & Hx & _).
    destruct (Hx (Z.to_nat i) ltac:(lia)) as (h & Hlook & Hrange).
    exists h. split; [now apply x_block_of_lookup | now apply fresh_handle].
  - unfold DataSlice.make_xy in Hmake.
    apply initialize_ok_inv in Hmake as (_ & Hfresh & _); cycle 1.
    { exact H1. } { exact Hn. } { apply length_replicate. }
    { intros _. apply length_replicate. }
    split; [intros h t; eapply blocks_fresh_frame; eauto |].
    intros i Hi. destruct Hfresh as (_ & _ & Hx & Hy). split.
    + destruct (Hx (Z.to_nat i) ltac:(lia)) as (h & Hlook & Hrange).
      exists h. split; [now apply x_block_of_lookup | now apply fresh_handle].
    + intros Hyn. destruct Hy as [_ Hy]; [now apply bool_decide_eq_true |].
      destruct (Hy (Z.to_nat i) ltac:(lia)) as (h & Hlook & Hrange).
      exists h. split; [now apply y_block_of_lookup | now apply fresh_handle].
Qed.

Lemma constructed_blocks_are_fresh_witness :
  exists h, DataSlice.x_block (DataSlice.mk [Some 1%nat; Some 2%nat] [] false) 1
            = Ok (Some h)
            /\ heap (world_of [column SyclHomogenNumericTableDouble [1; 2; 3; 4; 5]]
                       no_file) !! h = None.
Proof.
  pose (w := world_of [column SyclHomogenNumericTableDouble [1; 2; 3; 4; 5]] no_file).
  assert (Hrun : DataSlice.make_x (Some 0%nat) 2 SyclHomogenNumericTableDouble w
                 = (fst (DataSlice.make_x (Some 0%nat) 2 SyclHomogenNumericTableDouble w),
                    Ok (DataSlice.mk [Some 1%nat; Some 2%nat] [] false)))
    by (apply run_result; vm_compute; reflexivity).
  destruct (constructed_blocks_are_fresh (Some 0%nat) None 2
              SyclHomogenNumericTableDouble w ltac:(lia) ltac:(lia)) as [Hx _].
  destruct (Hx _ _ Hrun) as (_ & Hblocks).
  destruct (Hblocks 1 ltac:(lia)) as (h & Hb & Hnone & _).
  exists h. split; [exact Hb | exact Hnone].
Defined.

(** X9. Asking for zero blocks is undefined: the division by
    [num_blocks] yields no block size, whatever the table. *)
Theorem zero_blocks_undefined (x y : option nat) (ty : NumericTableType) (w : world) :
  DataSlice.make_x x 0 ty w = (w, Undefined)
  /\ DataSlice.make_xy x y 0 ty w = (w, Undefined).
Proof.
  unfold DataSlice.make_x, DataSlice.make_xy, DataSlice.initialize.
  cbn [Z.eqb]. unfold bind, deref, lift.
  destruct x as [h |]; [| split; reflexivity].
  destruct (heap w !! h) as [t |]; [| split; reflexivity].
  rewrite block_size_zero_blocks. split; reflexivity.
Qed.

Lemma to_size_t_negative (z : Z) :
  - SIZE_MODULUS <= z < 0 -> to_size_t z = z + SIZE_MODULUS.
Proof.
  intros H. unfold to_size_t.
  rewrite <- (Z_mod_plus_full z 1 SIZE_MODULUS).
  apply Z.mod_small. lia.
Qed.

Lemma create_numeric_table_available (ty : NumericTableType) (c r : Z)
    (flag : AllocationFlag) (w : world) :
  ty <> OtherNumericTable ->
  create_numeric_table ty c r flag w
  = if allocates w ty c r flag
    then (with_heap w (heap w ++ [mkNumericTable ty c r (allocated_data c r flag)]),
          Ok (Some (length (heap w))))
    else (w, Throw (EmptyNumericTable "The numeric table is empty")).
Proof. intros Hty. destruct ty; [reflexivity | reflexivity | congruence]. Qed.

(** What [copy_block] does with a block that starts past the last row.
    [end_row] is clamped to [num_rows], and [end_row - start_row] wraps
    around. *)
Lemma copy_block_past_the_end (w : world) (hx : nat) (src : NumericTable)
    (ty : NumericTableType) (i b : Z) :
  heap w !! hx = Some src ->
  nt_wf src ->
  0 < nt_cols src ->
  0 <= i -> 0 <= b ->
  nt_rows src < i * b ->
  i * b + b < SIZE_MODULUS ->
  (forall rows, allocates w ty (nt_cols src) rows doAllocate = true ->
     rows * nt_cols src < SIZE_MODULUS) ->
  snd (DataSlice.copy_block (Some hx) ty i b w)
  = match ty with
    | OtherNumericTable =>
        Throw (NotAvailableNumericTable
                 "The given numeric table type is not implemented")
    | _ =>
        if allocates w ty (nt_cols src) (nt_rows src - i * b + SIZE_MODULUS) doAllocate
        then Undefined
        else Throw (EmptyNumericTable "The numeric table is empty")
    end.
Proof.
  intros Hsrc Hwf Hc Hi Hb Hpast Hsize Hreal.
  pose proof Hwf as [Hcols Hrows Hsz Hlen _].
  assert (Hib : 0 <= i * b) by nia.
  unfold DataSlice.copy_block, bind, deref. rewrite Hsrc.
  rewrite (to_size_t_small (i * b)) by lia.
  rewrite (to_size_t_small (i * b + b)) by lia.
  destruct (Z.ltb_spec (nt_rows src) (i * b + b)) as [_ | Hge]; [| lia].
  rewrite (to_size_t_negative (nt_rows src - i * b)) by lia.
  set (rows := nt_rows src - i * b + SIZE_MODULUS) in *.
  assert (Hcases : ty = OtherNumericTable \/ ty <> OtherNumericTable)
    by (destruct ty; [right | right | left]; congruence).
  destruct Hcases as [-> | Hty]; [reflexivity |].
  rewrite (create_numeric_table_available ty _ _ _ _ Hty).
  replace (match ty with
           | OtherNumericTable =>
               Throw (NotAvailableNumericTable
                        "The given numeric table type is not implemented")
           | _ => if allocates w ty (nt_cols src) rows doAllocate then Undefined
                  else Throw (EmptyNumericTable "The numeric table is empty")
           end)
    with (if allocates w ty (nt_cols src) rows doAllocate then @Undefined (option nat)
          else Throw (EmptyNumericTable "The numeric table is empty"))
    by (destruct ty; [reflexivity | reflexivity | congruence]).
  destruct (allocates w ty (nt_cols src) rows doAllocate) eqn:Ha; [| reflexivity].
  apply Hreal in Ha.
  rewrite with_heap_heap, list_lookup_middle by reflexivity.
  cbn [nt_data]. unfold lift, std_copy.
  rewrite (to_size_t_small (nt_cols src * rows)) by (unfold rows in *; nia).
  rewrite decide_False; [reflexivity |].
  intros [Hfit _]. rewrite Hlen in Hfit.
  assert (0 <= to_size_t (i * b * nt_cols src))
    by (unfold to_size_t; apply Z.mod_pos_bound; reflexivity).
  unfold rows, SIZE_MODULUS in *. nia.
Qed.

Lemma initialize_past_the_end (w : world) (hx : nat) (src : NumericTable)
    (num_blocks : Z) (ty : NumericTableType) (y : option nat) (s0 : DataSlice.t) :
  heap w !! hx = Some src ->
  nt_wf src ->
  0 < nt_cols src ->
  1 < num_blocks < 2 ^ 24 ->
  nt_rows src < 2 ^ 24 ->
  nt_rows src < (num_blocks - 1) * ceil_div (nt_rows src) num_blocks ->
  (forall rows, allocates w ty (nt_cols src) rows doAllocate = true ->
     rows * nt_cols src < SIZE_MODULUS) ->
  forall w' s, DataSlice.initialize ty num_blocks (Some hx) y s0 w <> (w', Ok s).
Proof.
  intros Hsrc Hwf Hc Hn HR Hpast Hreal w' s Hrun.
  pose proof Hwf as [_ Hrows _ _ _].
  set (b := ceil_div (nt_rows src) num_blocks) in *.
  pose proof (ceil_div_bounds (nt_rows src) num_blocks ltac:(lia) ltac:(lia))
    as (Hb0 & _ & Hbhi). fold b in Hb0, Hbhi.
  unfold DataSlice.initialize in Hrun.
  destruct (Z.eqb_spec num_blocks 1) as [? | _]; [lia |].
  unfold bind at 1 in Hrun. unfold deref in Hrun. rewrite Hsrc in Hrun.
  unfold bind at 1, lift in Hrun. rewrite block_size_exact in Hrun by lia.
  fold b in Hrun.
  set (N := Z.to_nat num_blocks) in *.
  pose (P := fun (j : nat) (w1 : world) (_ : DataSlice.t) =>
    (j < N)%nat /\ exists new, w1 = with_heap w (heap w ++ new)).
  assert (HP : P N w' s).
  { refine (for_blocks_ok_rule P _ _ _ w s0 w' s _ Hrun).
    - intros j w1 s1 w2 s2 Hj [_ (new & ->)] Hbody.
      pose proof Hbody as Hset.
      apply set_block_ok_inv in Hset as (new' & -> & _).
      assert (Hlt : (S j < N)%nat \/ Z.of_nat j = num_blocks - 1) by lia.
      destruct Hlt as [Hlt | Hlast].
      + split; [exact Hlt |]. exists (new ++ new').
        rewrite with_heap_heap, with_heap_twice. now rewrite app_assoc.
      + exfalso. unfold DataSlice.set_block in Hbody.
        apply bind_ok in Hbody as (w3 & xb & Hcopy & _).
        pose proof (copy_block_past_the_end (with_heap w (heap w ++ new)) hx src ty
                      (Z.of_nat j) b) as Hover.
        rewrite Hcopy in Hover. cbn [snd] in Hover.
        rewrite Hlast in Hover.
        assert (Hbig : (num_blocks - 1) * b + b < SIZE_MODULUS).
        { unfold SIZE_MODULUS. change (2 ^ 24) with 16777216 in *.
          change (2 ^ 64) with 18446744073709551616. nia. }
        specialize (Hover
          ltac:(rewrite with_heap_heap, lookup_app_l
                  by (eapply lookup_lt_Some; eauto); exact Hsrc)
          Hwf Hc ltac:(lia) Hb0 Hpast Hbig Hreal).
        destruct ty; [| | discriminate];
          match type of Hover with
          | _ = (if ?c then _ else _) => destruct c; discriminate
          end.
    - split; [unfold N; lia |]. exists []. rewrite app_nil_r. now destruct w. }
  destruct HP as [HN _]. lia.
Qed.

(** X8. When the last block would start past the last row, that is
    when [(num_blocks - 1) * ceil (R / num_blocks) > R] (five rows in
    four blocks, for one), no slice is built: the construction throws
    or is undefined.  The table has at least one column, and the
    backend allocates no table of [2^64] elements or more. *)
Theorem blocks_past_the_end_fail (w : world) (hx : nat) (src : NumericTable)
    (num_blocks : Z) (ty : NumericTableType) :
  heap w !! hx = Some src ->
  nt_wf src ->
  0 < nt_cols src ->
  1 < num_blocks < 2 ^ 24 ->
  nt_rows src < 2 ^ 24 ->
  nt_rows src < (num_blocks - 1) * ceil_div (nt_rows src) num_blocks ->
  (forall rows, allocates w ty (nt_cols src) rows doAllocate = true ->
     rows * nt_cols src < SIZE_MODULUS) ->
  ~ (exists w' s, DataSlice.make_x (Some hx) num_blocks ty w = (w', Ok s))
  /\ ~ (exists y w' s, DataSlice.make_xy (Some hx) y num_blocks ty w = (w', Ok s)).
Proof.
  intros Hsrc Hwf Hc Hn HR Hpast Hreal. split.
  - intros (w' & s & Hrun). revert Hrun. unfold DataSlice.make_x.
    now apply (initialize_past_the_end w hx src).
  - intros (y & w' & s & Hrun). revert Hrun. unfold DataSlice.make_xy.
    now apply (initialize_past_the_end w hx src).
Qed.

Lemma bounded_allocator_fits (ty : NumericTableType) (cols rows : Z)
    (flag : AllocationFlag) :
  bounded_allocator ty cols rows flag = true -> rows * cols < SIZE_MODULUS.
Proof.
  unfold bounded_allocator. intros H%Z.ltb_lt.
  unfold SIZE_MODULUS. change (2 ^ 32) with 4294967296 in H.
  change (2 ^ 64) with 18446744073709551616. lia.
Qed.

Lemma blocks_past_the_end_fail_witness :
  5 < (4 - 1) * ceil_div 5 4
  /\ ~ (exists w' s,
          DataSlice.make_x (Some 0%nat) 4 SyclHomogenNumericTableDouble
            (world_of [column SyclHomogenNumericTableDouble [1; 2; 3; 4; 5]] no_file)
          = (w', Ok s)).
Proof.
  split; [reflexivity |].
  refine (proj1 (blocks_past_the_end_fail
            (world_of [column SyclHomogenNumericTableDouble [1; 2; 3; 4; 5]] no_file)
            0%nat (column SyclHomogenNumericTableDouble [1; 2; 3; 4; 5]) 4
            SyclHomogenNumericTableDouble eq_refl _ _ _ _ _ _)).
  - apply column_wf. reflexivity.
  - reflexivity.
  - lia.
  - reflexivity.
  - reflexivity.
  - intros rows. apply bounded_allocator_fits.
Defined.






(** X7. A block that starts past the last row of the source
    ([block_index * block_size > num_rows]) and ends without overflow
    of [size_t] ([block_index * block_size + block_size < 2^64]) is
    never returned: the number of rows asked of the backend wraps
    around to [num_rows - block_index * block_size + 2^64]; for a type
    that is not implemented [NotAvailableNumericTable] is thrown, when
    the backend refuses, [EmptyNumericTable] is thrown, and when it
    grants the table, the copy reads past the end of the source.  The
    table has at least one column, and the backend allocates no table
    of [2^64] elements or more. *)
Theorem copy_block_starts_past_the_end (w : world) (hx : nat) (src : NumericTable)
    (ty : NumericTableType) (block_index block_size : Z) :
  heap w !! hx = Some src ->
  nt_wf src ->
  0 < nt_cols src ->
  0 <= block_index -> 0 <= block_size ->
  nt_rows src < block_index * block_size ->
  block_index * block_size + block_size < SIZE_MODULUS ->
  (forall rows, allocates w ty (nt_cols src) rows doAllocate = true ->
     rows * nt_cols src < SIZE_MODULUS) ->
  snd (DataSlice.copy_block (Some hx) ty block_index block_size w)
  = match ty with
    | OtherNumericTable =>
        Throw (NotAvailableNumericTable
                 "The given numeric table type is not implemented")
    | _ =>
        if allocates w ty (nt_cols src)
             (nt_rows src - block_index * block_size + SIZE_MODULUS) doAllocate
        then Undefined
        else Throw (EmptyNumericTable "The numeric table is empty")
    end.
Proof. apply copy_block_past_the_end. Qed.

Lemma copy_block_starts_past_the_end_witness :
  snd (DataSlice.copy_block (Some 0%nat) SyclHomogenNumericTableFloat 3 2
         (world_of [column SyclHomogenNumericTableDouble [1; 2; 3; 4; 5]] no_file))
  = Throw (EmptyNumericTable "The numeric table is empty").
Proof.
  refine (copy_block_starts_past_the_end
            (world_of [column SyclHomogenNumericTableDouble [1; 2; 3; 4; 5]] no_file)
            0%nat (column SyclHomogenNumericTableDouble [1; 2; 3; 4; 5])
            SyclHomogenNumericTableFloat 3 2 eq_refl _ _ _ _ _ _ _).
  - apply column_wf. reflexivity.
  - reflexivity.
  - lia.
  - lia.
  - reflexivity.
  - reflexivity.
  - intros rows. apply bounded_allocator_fits.
Defined.

(** ** Cleared slices *)

Lemma last_cleared (v : list NumericTablePtr) :
  v <> [] -> last (map (fun _ : option nat => @None nat) v) = Some None.
Proof.
  intros Hv. rewrite last_lookup, length_map.
  apply cleared_blocks_null. destruct v; [congruence | simpl; lia].
Qed.

(** X12. After [clear()] a slice still has its blocks, all null:
    [x()] and [y()] do not throw but return a null handle where
    [x_block(i)] and [y_block(i)] throw, [xy_blocks(i)] throws
    [EmptyNumericTable] for every index in range, and a second
    [clear()] changes nothing. *)
Theorem cleared_slice_hands_out_null (s : DataSlice.t) :
  (DataSlice.x_blocks_ s <> [] -> DataSlice.x (DataSlice.clear s) = Ok None)
  /\ (DataSlice.y_blocks_ s <> [] -> DataSlice.y (DataSlice.clear s) = Ok None)
  /\ (forall i, 0 <= i < Z.of_nat (length (DataSlice.x_blocks_ s)) ->
        DataSlice.xy_blocks (DataSlice.clear s) i
        = Throw (EmptyNumericTable "Dataset does not contain either X or Y slices"))
  /\ DataSlice.clear (DataSlice.clear s) = DataSlice.clear s.
Proof.
  destruct s as [xs ys lab].
  unfold DataSlice.x, DataSlice.y, DataSlice.xy_blocks, DataSlice.clear, vec_back.
  cbn [DataSlice.x_blocks_ DataSlice.y_blocks_ DataSlice.labeled_].
  split; [| split; [| split]].
  - intros Hx. rewrite (last_cleared xs Hx). now destruct xs.
  - intros Hy. rewrite (last_cleared ys Hy). now destruct ys.
  - intros i Hi.
    now rewrite (vec_at_lookup _ i None) by (apply cleared_blocks_null; lia).
  - f_equal; rewrite map_map; reflexivity.
Qed.

(** ** The input of the online algorithm *)

(** X13. [set_input_block] never hands a null table to the algorithm:
    when it returns, the table is block [block_index] of the full
    slice, not null.  It throws [EmptyNumericTable] when the dataset
    has no full slice, and after [Dataset::clear()] it never returns,
    whatever the index. *)
Theorem input_block_is_never_null (dataset : Dataset.t) (block_index : Z) :
  (forall p, MomentsOnline.set_input_block dataset block_index = Ok p ->
     exists h, p = Some h
               /\ DataSlice.x_blocks_ (Dataset.full_slice_ dataset) !! Z.to_nat block_index
                  = Some (Some h))
  /\ (Dataset.has_full dataset = false ->
      MomentsOnline.set_input_block dataset block_index
      = Throw (EmptyNumericTable "Full slice of the dataset is empty"))
  /\ (forall p, MomentsOnline.set_input_block (Dataset.clear dataset) block_index
                <> Ok p).
Proof.
  assert (Hok : forall d p, MomentsOnline.set_input_block d block_index = Ok p ->
            exists h, p = Some h
              /\ DataSlice.x_blocks_ (Dataset.full_slice_ d) !! Z.to_nat block_index
                 = Some (Some h)).
  { intros d p. unfold MomentsOnline.set_input_block, Dataset.full.
    destruct (DataSlice.empty (Dataset.full_slice_ d)); [discriminate |].
    cbn [and_then]. unfold DataSlice.x_block, vec_at.
    destruct (vec_empty _); [discriminate |].
    destruct (_ !! Z.to_nat block_index) as [[h |] |]; cbn [and_then DataSlice.is_null];
      try discriminate.
    intros [= <-]. now exists h. }
  split; [apply Hok |]. split.
  - unfold Dataset.has_full, MomentsOnline.set_input_block, Dataset.full.
    intros H%negb_false_iff. now rewrite H.
  - intros p Hp. apply Hok in Hp as (h & _ & Hlook).
    unfold Dataset.clear, DataSlice.clear in Hlook.
    cbn [Dataset.full_slice_ DataSlice.x_blocks_] in Hlook.
    rewrite list_lookup_fmap in Hlook.
    destruct (_ !! Z.to_nat block_index); discriminate.
Qed.

(** ** The shorter constructors *)

(** X18. A dataset built from a train and a test slice has no full
    slice: [full()] throws, and [full_or_train()] and [full_or_test()]
    are [train()] and [test()].  One built from a full slice alone has
    no train and no test slice: [full_or_train()] and [full_or_test()]
    are both [full()].  With three slices the full slice is served
    first, as with four.  In each case [index()] throws. *)
Theorem shorter_constructors (labeled_default : bool)
    (train_slice test_slice full_slice : DataSlice.t) :
  let d2 := Dataset.make_train_test labeled_default train_slice test_slice in
  let d1 := Dataset.make_full labeled_default full_slice in
  let d3 := Dataset.make_train_test_full labeled_default train_slice test_slice
              full_slice in
  (Dataset.has_full d2 = false
   /\ Dataset.full d2 = Throw (EmptyNumericTable "Full slice of the dataset is empty")
   /\ Dataset.index d2 = Throw (EmptyNumericTable "Index slice of the dataset is empty")
   /\ (DataSlice.empty train_slice = false ->
       Dataset.full_or_train d2 = Ok train_slice)
   /\ (DataSlice.empty test_slice = false ->
       Dataset.full_or_test d2 = Ok test_slice))
  /\ (Dataset.has_train d1 = false /\ Dataset.has_test d1 = false
      /\ Dataset.index d1
         = Throw (EmptyNumericTable "Index slice of the dataset is empty")
      /\ Dataset.full_or_train d1
         = (if DataSlice.empty full_slice
            then Throw (EmptyNumericTable "Full and Train slices of the dataset are empty")
            else Ok full_slice)
      /\ Dataset.full_or_test d1
         = (if DataSlice.empty full_slice
            then Throw (EmptyNumericTable "Full and Test slices of the dataset are empty")
            else Ok full_slice))
  /\ (Dataset.index d3
      = Throw (EmptyNumericTable "Index slice of the dataset is empty")
      /\ (DataSlice.empty full_slice = false ->
          Dataset.full_or_train d3 = Ok full_slice
          /\ Dataset.full_or_test d3 = Ok full_slice)).
Proof.
  intros d2 d1 d3. subst d2 d1 d3.
  unfold Dataset.full_or_train, Dataset.full_or_test, Dataset.has_full,
    Dataset.has_train, Dataset.has_test, Dataset.full, Dataset.train, Dataset.test,
    Dataset.index, Dataset.make_train_test, Dataset.make_full,
    Dataset.make_train_test_full.
  cbn [Dataset.train_slice_ Dataset.test_slice_ Dataset.full_slice_
       Dataset.index_slice_].
  rewrite !empty_make_empty. cbn [negb].
  split; [| split].
  - split; [reflexivity |]. split; [reflexivity |]. split; [reflexivity |].
    split; intros ->; reflexivity.
  - split; [reflexivity |]. split; [reflexivity |]. split; [reflexivity |].
    split; destruct (DataSlice.empty full_slice); reflexivity.
  - split; [reflexivity |]. intros ->. split; reflexivity.
Qed.

(** X19. A [copy_block] that returns has left every table as it was,
    the source included, and returns a handle, never null, of one new
    table of the requested type that has the columns of the source. *)
Theorem copy_block_leaves_tables_alone (p : option nat) (ty : NumericTableType)
    (block_index block_size : Z) (w w' : world) (r : option nat) :
  DataSlice.copy_block p ty block_index block_size w = (w', Ok r) ->
  exists hx src h t,
    p = Some hx /\ heap w !! hx = Some src
    /\ r = Some h /\ heap w !! h = None /\ heap w' !! h = Some t
    /\ nt_type t = ty /\ nt_cols t = nt_cols src
    /\ length (heap w') = S (length (heap w))
    /\ (forall h' t', heap w !! h' = Some t' -> heap w' !! h' = Some t')
    /\ csv_loaded w' = csv_loaded w.
Proof.
  intros Hrun.
  apply copy_block_ok_inv in Hrun as (hx & src & t & -> & Hsrc & -> & -> & Hty & Hcols).
  exists hx, src, (length (heap w)), t.
  split; [reflexivity |]. split; [exact Hsrc |]. split; [reflexivity |].
  split; [now apply lookup_ge_None_2 |].
  rewrite with_heap_heap.
  split; [now apply list_lookup_middle |].
  split; [exact Hty |]. split; [exact Hcols |].
  split; [rewrite length_app; simpl; lia |].
  split; [| reflexivity].
  intros h' t' Hh'. rewrite lookup_app_l by (eapply lookup_lt_Some; eauto). exact Hh'.
Qed.

Lemma copy_block_leaves_tables_alone_witness :
  exists hx src h t,
    Some 0%nat = Some hx
    /\ heap (world_of [column SyclHomogenNumericTableDouble [1; 2; 3; 4; 5]] no_file)
         !! hx = Some src
    /\ Some 1%nat = Some h
    /\ nt_type t = SyclHomogenNumericTableFloat /\ nt_cols t = nt_cols src.
Proof.
  pose (w := world_of [column SyclHomogenNumericTableDouble [1; 2; 3; 4; 5]] no_file).
  assert (Hrun : DataSlice.copy_block (Some 0%nat) SyclHomogenNumericTableFloat 1 2 w
                 = (fst (DataSlice.copy_block (Some 0%nat)
                           SyclHomogenNumericTableFloat 1 2 w),
                    Ok (Some 1%nat)))
    by (apply run_result; vm_compute; reflexivity).
  destruct (copy_block_leaves_tables_alone _ _ _ _ _ _ _ Hrun)
    as (hx & src & h & t & Hp & Hsrc & Hr & _ & _ & Hty & Hcols & _).
  exists hx, src, h, t. repeat split; assumption.
Defined.

(** ** What a throwing call has met *)

Lemma bind_throw {A B} (m : M A) (k : A -> M B) (w w' : world) (e : exn) :
  bind m k w = (w', Throw e) ->
  m w = (w', Throw e) \/ exists w1 a, m w = (w1, Ok a) /\ k a w1 = (w', Throw e).
Proof.
  unfold bind. destruct (m w) as [w1 [a | e1 |]]; intros H.
  - right. now exists w1, a.
  - left. now injection H as -> ->.
  - discriminate H.
Qed.

Lemma create_numeric_table_throws (ty : NumericTableType) (c r : Z)
    (flag : AllocationFlag) (w w' : world) (e : exn) :
  create_numeric_table ty c r flag w = (w', Throw e) ->
  w' = w /\ factory_error ty e.
Proof.
  unfold create_numeric_table, factory_error.
  destruct ty; try destruct (allocates w _ c r flag); intros [= <- <-];
    (split; [reflexivity |]); (left; split; [reflexivity | reflexivity])
    || (right; split; [discriminate | reflexivity]).
Qed.

Lemma create_numeric_table_ok (ty : NumericTableType) (c r : Z)
    (flag : AllocationFlag) (w w' : world) (p : option nat) :
  create_numeric_table ty c r flag w = (w', Ok p) ->
  ty <> OtherNumericTable
  /\ p = Some (length (heap w))
  /\ w' = with_heap w (heap w ++ [mkNumericTable ty c r (allocated_data c r flag)]).
Proof.
  intros H.
  assert (Hty : ty <> OtherNumericTable) by (intros ->; discriminate H).
  rewrite (create_numeric_table_available ty c r flag w Hty) in H.
  destruct (allocates w ty c r flag); [| discriminate].
  injection H as <- <-. now repeat split.
Qed.

Lemma copy_block_throws (p : option nat) (ty : NumericTableType) (i b : Z)
    (w w' : world) (e : exn) :
  DataSlice.copy_block p ty i b w = (w', Throw e) -> factory_error ty e.
Proof.
  unfold DataSlice.copy_block. intros H.
  apply bind_throw in H as [H | (w1 & src & _ & H)].
  { unfold deref in H. destruct p as [h |]; [| discriminate].
    destruct (heap w !! h); discriminate. }
  apply bind_throw in H as [H | (w2 & tmp & _ & H)].
  { now apply create_numeric_table_throws in H as [_ H]. }
  apply bind_throw in H as [H | (w3 & t & _ & H)].
  { unfold deref in H. destruct tmp as [h |]; [| discriminate].
    destruct (heap w2 !! h); discriminate. }
  apply bind_throw in H as [H | (w4 & written & _ & H)].
  { unfold lift, std_copy in H. destruct (decide _); discriminate. }
  apply bind_throw in H as [H | (w5 & u & _ & H)].
  { unfold releaseBlockOfRows in H. destruct tmp as [h |]; [| discriminate].
    destruct (heap w4 !! h); discriminate. }
  discriminate H.
Qed.

Lemma vec_set_no_throw {A} (v : list A) (i : Z) (a : A) (w w' : world) (e : exn) :
  lift (vec_set v i a) w <> (w', Throw e).
Proof. unfold lift, vec_set. destruct (decide _); discriminate. Qed.

Lemma set_block_throws (i b : Z) (x y : option nat) (ty : NumericTableType)
    (s : DataSlice.t) (w w' : world) (e : exn) :
  DataSlice.set_block i b x y ty s w = (w', Throw e) -> factory_error ty e.
Proof.
  unfold DataSlice.set_block. intros H.
  apply bind_throw in H as [H | (w1 & xb & _ & H)];
    [now apply copy_block_throws in H |].
  apply bind_throw in H as [H | (w2 & xs & _ & H)];
    [now apply vec_set_no_throw in H |].
  destruct y as [hy |]; [| discriminate].
  apply bind_throw in H as [H | (w3 & yb & _ & H)];
    [now apply copy_block_throws in H |].
  apply bind_throw in H as [H | (w4 & ys & _ & H)];
    [now apply vec_set_no_throw in H |].
  discriminate H.
Qed.

Lemma for_blocks_throws (Q : exn -> Prop) (body : Z -> DataSlice.t -> M DataSlice.t) :
  (forall j s w w' e, body j s w = (w', Throw e) -> Q e) ->
  forall n i s w w' e, DataSlice.for_blocks n i body s w = (w', Throw e) -> Q e.
Proof.
  intros Hbody. induction n as [| n IH]; intros i s w w' e H.
  - discriminate H.
  - cbn [DataSlice.for_blocks] in H.
    apply bind_throw in H as [H | (w1 & s1 & _ & H)]; [now apply Hbody in H |].
    now apply IH in H.
Qed.

Lemma initialize_throws (ty : NumericTableType) (num_blocks : Z) (x y : option nat)
    (s0 : DataSlice.t) (w w' : world) (e : exn) :
  DataSlice.initialize ty num_blocks x y s0 w = (w', Throw e) -> factory_error ty e.
Proof.
  unfold DataSlice.initialize. destruct (num_blocks =? 1); intros H.
  - apply bind_throw in H as [H | (w1 & xs & _ & H)];
      [now apply vec_set_no_throw in H |].
    destruct y as [hy |]; [| discriminate].
    apply bind_throw in H as [H | (w2 & ys & _ & H)];
      [now apply vec_set_no_throw in H |].
    discriminate H.
  - apply bind_throw in H as [H | (w1 & tx & _ & H)].
    { unfold deref in H. destruct x as [h |]; [| discriminate].
      destruct (heap w !! h); discriminate. }
    apply bind_throw in H as [H | (w2 & bsz & _ & H)].
    { unfold lift, DataSlice.block_size_of in H.
      destruct (Float32.ceil_to_size_t _); discriminate. }
    revert H. apply for_blocks_throws. intros j s w3 w4 e'. apply set_block_throws.
Qed.

(** A construction that returns has only added tables. *)
Lemma initialize_ok_world (ty : NumericTableType) (num_blocks : Z) (x y : option nat)
    (s0 s : DataSlice.t) (w w' : world) :
  DataSlice.initialize ty num_blocks x y s0 w = (w', Ok s) ->
  exists new, w' = with_heap w (heap w ++ new).
Proof.
  assert (Hrefl : w = with_heap w (heap w ++ []))
    by (rewrite app_nil_r; now destruct w).
  unfold DataSlice.initialize. destruct (num_blocks =? 1); intros H.
  - apply bind_ok in H as (w1 & xs & Hxs & H). apply lift_ok_inv in Hxs as [-> _].
    destruct y as [hy |].
    + apply bind_ok in H as (w2 & ys & Hys & H). apply lift_ok_inv in Hys as [-> _].
      injection H as <- _. now exists [].
    + injection H as <- _. now exists [].
  - apply bind_ok in H as (w1 & tx & Htx & H). apply deref_ok_inv in Htx as [-> _].
    apply bind_ok in H as (w2 & bsz & Hb & H). apply lift_ok_inv in Hb as [-> _].
    pose (P := fun (_ : nat) (w1 : world) (_ : DataSlice.t) =>
                 exists new, w1 = with_heap w (heap w ++ new)).
    refine (for_blocks_ok_rule P _ _ _ w s0 w' s _ H).
    + intros j w1 s1 w2 s2 _ [new ->] Hbody.
      apply set_block_ok_inv in Hbody as (new' & -> & _).
      exists (new ++ new'). rewrite with_heap_heap, with_heap_twice.
      now rewrite app_assoc.
    + now exists [].
Qed.

(** ** The loader *)

Lemma load_data_block_ok (path : string) (targets : list nat) (w w' : world)
    (status : bool) :
  DatasetFromCsv.load_data_block path targets w = (w', Ok status) ->
  exists heap', w' = with_csv_loaded (with_heap w heap') (path :: csv_loaded w).
Proof.
  unfold DatasetFromCsv.load_data_block.
  destruct (mapM _ targets) as [tables |]; [| discriminate].
  destruct (loadDataBlock w path tables) as [tables' st].
  intros [= <- _]. now eexists.
Qed.

Lemma load_data_block_no_throw (path : string) (targets : list nat) (w w' : world)
    (e : exn) :
  DatasetFromCsv.load_data_block path targets w <> (w', Throw e).
Proof.
  unfold DatasetFromCsv.load_data_block.
  destruct (mapM _ targets) as [tables |]; [| discriminate].
  destruct (loadDataBlock w path tables) as [tables' st]. discriminate.
Qed.

Lemma check_data_source_status_throws (path : string) (status : bool)
    (w w' : world) (e : exn) :
  DatasetFromCsv.check_data_source_status path status w = (w', Throw e) ->
  w' = w /\ status = false
  /\ e = CannotReadCsv ("Cannot read CSV file '" +:+ path +:+ "'").
Proof.
  unfold DatasetFromCsv.check_data_source_status.
  destruct status; [discriminate |]. intros [= <- <-]. now repeat split.
Qed.

Lemma check_data_source_status_ok (path : string) (status : bool)
    (w w' : world) (u : unit) :
  DatasetFromCsv.check_data_source_status path status w = (w', Ok u) ->
  w' = w /\ status = true.
Proof.
  unfold DatasetFromCsv.check_data_source_status.
  destruct status; [| discriminate]. intros [= <-]. now split.
Qed.

(** What an exception of the unlabeled load tells. *)
Lemma load_no_response_variable_throws (decl : declarations)
    (this : DatasetFromCsv.t) (path : string) (ty : NumericTableType)
    (w w' : world) (e : exn) :
  DatasetFromCsv.load_no_response_variable decl this path ty w = (w', Throw e) ->
  factory_error ty e
  \/ (e = CannotReadCsv ("Cannot read CSV file '" +:+ path +:+ "'")
      /\ csv_loaded w' = path :: csv_loaded w).
Proof.
  unfold DatasetFromCsv.load_no_response_variable. intros H.
  apply bind_throw in H as [H | (w1 & x & Hx & H)].
  { left. now apply create_numeric_table_throws in H as [_ H]. }
  apply create_numeric_table_ok in Hx as (_ & _ & ->).
  apply bind_throw in H as [H | (w2 & status & Hload & H)].
  { now apply load_data_block_no_throw in H. }
  apply load_data_block_ok in Hload as (heap' & ->).
  apply bind_throw in H as [H | (w3 & u & _ & H)].
  { right. apply check_data_source_status_throws in H as (-> & _ & ->).
    split; reflexivity. }
  left. unfold DataSlice.make_x in H. now apply initialize_throws in H.
Qed.

(** What an exception of the labeled load tells. *)
Lemma load_with_response_variable_throws (decl : declarations)
    (this : DatasetFromCsv.t) (path : string) (ty : NumericTableType)
    (w w' : world) (e : exn) :
  DatasetFromCsv.load_with_response_variable decl this path ty w = (w', Throw e) ->
  factory_error ty e
  \/ (e = CannotReadCsv ("Cannot read CSV file '" +:+ path +:+ "'")
      /\ csv_loaded w' = path :: csv_loaded w)
  \/ (exists m, e = CannotLoadDataset m)
     /\ DatasetFromCsv.num_features_ this = 0 /\ w' = w.
Proof.
  unfold DatasetFromCsv.load_with_response_variable.
  destruct (Z.eqb_spec (DatasetFromCsv.num_features_ this) 0) as [H0 | _]; intros H.
  { right. right. injection H as <- <-. split; [now eexists | now split]. }
  apply bind_throw in H as [H | (w1 & x & Hx & H)].
  { left. now apply create_numeric_table_throws in H as [_ H]. }
  apply create_numeric_table_ok in Hx as (_ & _ & ->).
  apply bind_throw in H as [H | (w2 & y & Hy & H)].
  { left. now apply create_numeric_table_throws in H as [_ H]. }
  apply create_numeric_table_ok in Hy as (_ & _ & ->).
  apply bind_throw in H as [H | (w3 & xy & Hxy & H)].
  { unfold lift, DataSlice.merged_create in H.
    destruct x, y; discriminate. }
  apply lift_ok_inv in Hxy as [-> _].
  apply bind_throw in H as [H | (w4 & status & Hload & H)].
  { now apply load_data_block_no_throw in H. }
  apply load_data_block_ok in Hload as (heap' & ->).
  apply bind_throw in H as [H | (w5 & u & _ & H)].
  { right. left. apply check_data_source_status_throws in H as (-> & _ & ->).
    split; reflexivity. }
  left. unfold DataSlice.make_xy in H. now apply initialize_throws in H.
Qed.

(** X17. What an exception of [load_slice] tells about its cause.
    [CannotOpenFile]: the file does not open, and nothing was done.
    [CannotLoadDataset]: the file opens, responses are asked for and
    the number of features is zero; nothing was done.  [CannotReadCsv]:
    the file opens and was read, and the message names the path.
    [NotAvailableNumericTable]: the table type is not implemented.
    [EmptyNumericTable]: the backend did not yield a table.  In each
    case the path is set. *)
Theorem load_slice_exceptions (decl : declarations) (this : DatasetFromCsv.t)
    (path : string) (ty : NumericTableType) (w w' : world) (e : exn) :
  DatasetFromCsv.load_slice decl this path ty w = (w', Throw e) ->
  DatasetFromCsv.string_empty path = false
  /\ match e with
     | CannotOpenFile m =>
         can_open_file w path = false /\ w' = w
         /\ m = join_sentences decl
                  [ "Cannot open dataset file '" +:+ path +:+ "'";
                    DatasetFromCsv.on_error_message_ this ]
     | CannotLoadDataset m =>
         can_open_file w path = true /\ w' = w
         /\ DatasetFromCsv.labeled_ this = true
         /\ 0 < DatasetFromCsv.num_responses_ this
         /\ DatasetFromCsv.num_features_ this = 0
     | CannotReadCsv m =>
         can_open_file w path = true
         /\ m = "Cannot read CSV file '" +:+ path +:+ "'"
         /\ csv_loaded w' = path :: csv_loaded w
     | NotAvailableNumericTable m =>
         can_open_file w path = true /\ ty = OtherNumericTable
         /\ m = "The given numeric table type is not implemented"
     | EmptyNumericTable m =>
         can_open_file w path = true /\ ty <> OtherNumericTable
         /\ m = "The numeric table is empty"
     end.
Proof.
  unfold DatasetFromCsv.load_slice.
  destruct (DatasetFromCsv.string_empty path); [discriminate |].
  destruct (can_open_file w path) eqn:Hopen; cbn [negb]; intros H.
  2: { injection H as <- <-. now repeat split. }
  split; [reflexivity |].
  destruct (DatasetFromCsv.labeled_ this && (0 <? DatasetFromCsv.num_responses_ this))
    eqn:Hlab.
  - apply andb_true_iff in Hlab as [Hl Hr%Z.ltb_lt].
    apply load_with_response_variable_throws in H
      as [[[-> ->] | [Hty ->]] | [[-> Hcsv] | ([m ->] & H0 & ->)]];
      now repeat split.
  - apply load_no_response_variable_throws in H
      as [[[-> ->] | [Hty ->]] | [-> Hcsv]];
      now repeat split.
Qed.

Lemma load_slice_exceptions_witness :
  can_open_file (world_of [] any_file) "train.csv" = true
  /\ "Cannot read CSV file '" +:+ "train.csv" +:+ "'" = "Cannot read CSV file 'train.csv'"
  /\ csv_loaded
       (fst (DatasetFromCsv.load_slice example_declarations
               (DatasetFromCsv.mk "" "train.csv" "" "" 1 0 1 0 false "")
               "train.csv" SyclHomogenNumericTableDouble (world_of [] any_file)))
     = ["train.csv"].
Proof.
  pose (w := world_of [] any_file).
  pose (this := DatasetFromCsv.mk "" "train.csv" "" "" 1 0 1 0 false "").
  assert (Hrun : DatasetFromCsv.load_slice example_declarations this "train.csv"
                   SyclHomogenNumericTableDouble w
                 = (fst (DatasetFromCsv.load_slice example_declarations this "train.csv"
                           SyclHomogenNumericTableDouble w),
                    Throw (CannotReadCsv "Cannot read CSV file 'train.csv'"))).
  { destruct (DatasetFromCsv.load_slice example_declarations this "train.csv"
                SyclHomogenNumericTableDouble w) as [w1 o] eqn:E.
    cbn [fst]. f_equal.
    change o with (snd (w1, o)). rewrite <- E. vm_compute. reflexivity. }
  destruct (load_slice_exceptions _ _ _ _ _ _ _ Hrun) as (_ & Hopen & Hm & Hcsv).
  split; [exact Hopen |]. split; [symmetry; exact Hm | exact Hcsv].
Defined.

Lemma mapM_lookup_one (hp : list NumericTable) (t : NumericTable) :
  mapM (fun h => (hp ++ [t]) !! h) [length hp] = Some [t].
Proof.
  cbn [mapM]. rewrite list_lookup_middle by reflexivity. reflexivity.
Qed.

Lemma mapM_lookup_two (hp : list NumericTable) (t1 t2 : NumericTable) :
  mapM (fun h => ((hp ++ [t1]) ++ [t2]) !! h) [length hp; length (hp ++ [t1])]
  = Some [t1; t2].
Proof.
  assert (H1 : ((hp ++ [t1]) ++ [t2]) !! length hp = Some t1)
    by (rewrite <- app_assoc; now apply list_lookup_middle).
  assert (H2 : ((hp ++ [t1]) ++ [t2]) !! length (hp ++ [t1]) = Some t2)
    by now apply list_lookup_middle.
  cbn [mapM]. rewrite H1, H2. reflexivity.
Qed.

(** X14. A file that opens but that the data source fails to read:
    when the table type is implemented and the backend yields the
    tables to read into, [load_slice] throws [CannotReadCsv] with the
    message [Cannot read CSV file '<path>'], after the one read of the
    file; no slice is built.  (With responses asked for, the number of
    features is not zero.) *)
Theorem unreadable_csv (decl : declarations) (this : DatasetFromCsv.t)
    (path : string) (ty : NumericTableType) (w : world) :
  DatasetFromCsv.string_empty path = false ->
  can_open_file w path = true ->
  ty <> OtherNumericTable ->
  (forall cols, allocates w ty cols (default_num_observations decl)
                  (default_allocation_flag decl) = true) ->
  (forall tables, snd (loadDataBlock w path tables) = false) ->
  (DatasetFromCsv.labeled_ this && (0 <? DatasetFromCsv.num_responses_ this) = true ->
   DatasetFromCsv.num_features_ this <> 0) ->
  exists w',
    DatasetFromCsv.load_slice decl this path ty w
    = (w', Throw (CannotReadCsv ("Cannot read CSV file '" +:+ path +:+ "'")))
    /\ csv_loaded w' = path :: csv_loaded w.
Proof.
  intros Hpath Hopen Hty Halloc Hstatus Hfeat.
  unfold DatasetFromCsv.load_slice. rewrite Hpath, Hopen. cbn [negb].
  destruct (DatasetFromCsv.labeled_ this && (0 <? DatasetFromCsv.num_responses_ this)).
  - unfold DatasetFromCsv.load_with_response_variable.
    destruct (Z.eqb_spec (DatasetFromCsv.num_features_ this) 0) as [H0 | _];
      [now apply Hfeat in H0 |].
    unfold bind at 1. rewrite (create_numeric_table_available ty _ _ _ _ Hty), Halloc.
    unfold bind at 1. rewrite (create_numeric_table_available ty _ _ _ _ Hty).
    change (allocates (with_heap w ?h)) with (allocates w). rewrite Halloc.
    rewrite !with_heap_heap, with_heap_twice.
    unfold bind at 1. unfold lift at 1. cbn [DataSlice.merged_create].
    unfold bind at 1. unfold DatasetFromCsv.load_data_block.
    cbn [merged_first merged_second]. rewrite with_heap_heap, mapM_lookup_two.
    change (loadDataBlock (with_heap w ?h)) with (loadDataBlock w).
    match goal with
    | |- context [loadDataBlock w path ?ts] =>
        pose proof (Hstatus ts) as Hst; destruct (loadDataBlock w path ts) as [ts' st]
    end.
    cbn [snd] in Hst. subst st.
    unfold bind. cbn [DatasetFromCsv.check_data_source_status throw].
    eexists. split; reflexivity.
  - unfold DatasetFromCsv.load_no_response_variable.
    unfold bind at 1. rewrite (create_numeric_table_available ty _ _ _ _ Hty), Halloc.
    unfold bind at 1. unfold DatasetFromCsv.load_data_block.
    cbn [option_list]. rewrite with_heap_heap, mapM_lookup_one.
    change (loadDataBlock (with_heap w ?h)) with (loadDataBlock w).
    match goal with
    | |- context [loadDataBlock w path ?ts] =>
        pose proof (Hstatus ts) as Hst; destruct (loadDataBlock w path ts) as [ts' st]
    end.
    cbn [snd] in Hst. subst st.
    unfold bind. cbn [DatasetFromCsv.check_data_source_status throw].
    eexists. split; reflexivity.
Qed.

Lemma unreadable_csv_witness :
  exists w',
    DatasetFromCsv.load_slice example_declarations
      (DatasetFromCsv.mk "" "train.csv" "" "" 3 1 2 0 true "")
      "train.csv" SyclHomogenNumericTableFloat (world_of [] any_file)
    = (w', Throw (CannotReadCsv ("Cannot read CSV file '" +:+ "train.csv" +:+ "'")))
    /\ csv_loaded w' = ["train.csv"].
Proof.
  apply (unreadable_csv example_declarations
           (DatasetFromCsv.mk "" "train.csv" "" "" 3 1 2 0 true "")
           "train.csv" SyclHomogenNumericTableFloat (world_of [] any_file)).
  - reflexivity.
  - reflexivity.
  - discriminate.
  - intros cols. reflexivity.
  - intros tables. reflexivity.
  - intros _. discriminate.
Defined.

(** What a returning [load_slice] has done, for a path that is set. *)
Lemma load_slice_ok_inv (decl : declarations) (this : DatasetFromCsv.t)
    (path : string) (ty : NumericTableType) (w w' : world) (s : DataSlice.t) :
  0 <= DatasetFromCsv.num_blocks_ this ->
  DatasetFromCsv.string_empty path = false ->
  DatasetFromCsv.load_slice decl this path ty w = (w', Ok s) ->
  can_open_file w path = true
  /\ ty <> OtherNumericTable
  /\ csv_loaded w' = path :: csv_loaded w
  /\ DataSlice.empty s = false
  /\ 1 <= DatasetFromCsv.num_blocks_ this
  /\ Z.of_nat (length (DataSlice.x_blocks_ s)) = DatasetFromCsv.num_blocks_ this
  /\ DataSlice.labeled_ s
     = DatasetFromCsv.labeled_ this && (0 <? DatasetFromCsv.num_responses_ this)
  /\ (if DataSlice.labeled_ s
      then length (DataSlice.y_blocks_ s) = length (DataSlice.x_blocks_ s)
           /\ DatasetFromCsv.num_features_ this <> 0
      else DataSlice.y_blocks_ s = []).
Proof.
  intros Hn Hpath. unfold DatasetFromCsv.load_slice. rewrite Hpath.
  destruct (can_open_file w path); cbn [negb]; [| discriminate].
  destruct (DatasetFromCsv.labeled_ this && (0 <? DatasetFromCsv.num_responses_ this));
    intros H.
  - unfold DatasetFromCsv.load_with_response_variable in H.
    destruct (Z.eqb_spec (DatasetFromCsv.num_features_ this) 0) as [H0 | Hf];
      [discriminate |].
    apply bind_ok in H as (w1 & x & Hx & H).
    apply create_numeric_table_ok in Hx as (Hty & _ & ->).
    apply bind_ok in H as (w2 & y & Hy & H).
    apply create_numeric_table_ok in Hy as (_ & _ & ->).
    apply bind_ok in H as (w3 & xy & Hxy & H). apply lift_ok_inv in Hxy as [-> _].
    apply bind_ok in H as (w4 & status & Hload & H).
    apply load_data_block_ok in Hload as (heap' & ->).
    apply bind_ok in H as (w5 & u & Hst & H).
    apply check_data_source_status_ok in Hst as [-> _].
    pose proof H as Hworld. unfold DataSlice.make_xy in Hworld.
    apply initialize_ok_world in Hworld as (new & ->).
    apply make_xy_shape in H as (H1 & Hlx & Hly & Hlab); [| exact Hn].
    split; [reflexivity |]. split; [exact Hty |]. split; [reflexivity |].
    split.
    { apply (empty_of_lengths s (Z.to_nat (DatasetFromCsv.num_blocks_ this)));
        [lia | exact Hlx | now intros _]. }
    split; [exact H1 |]. split; [lia |]. split; [exact Hlab |].
    rewrite Hlab. split; [congruence | exact Hf].
  - unfold DatasetFromCsv.load_no_response_variable in H.
    apply bind_ok in H as (w1 & x & Hx & H).
    apply create_numeric_table_ok in Hx as (Hty & _ & ->).
    apply bind_ok in H as (w4 & status & Hload & H).
    apply load_data_block_ok in Hload as (heap' & ->).
    apply bind_ok in H as (w5 & u & Hst & H).
    apply check_data_source_status_ok in Hst as [-> _].
    pose proof H as Hworld. unfold DataSlice.make_x in Hworld.
    apply initialize_ok_world in Hworld as (new & ->).
    apply make_x_shape in H as (H1 & Hlx & Hy & Hlab); [| exact Hn].
    split; [reflexivity |]. split; [exact Hty |]. split; [reflexivity |].
    split.
    { apply (empty_of_lengths s (Z.to_nat (DatasetFromCsv.num_blocks_ this)));
        [lia | exact Hlx | rewrite Hlab; discriminate]. }
    split; [exact H1 |]. split; [lia |]. split; [exact Hlab |].
    rewrite Hlab. exact Hy.
Qed.

(** X15. What [load_slice] returns for a path that is set: the file
    opens and was read once, the table type is implemented, and the
    slice is not empty and has [num_blocks_ >= 1] feature blocks.  It
    is labeled exactly when the builder is labeled and asks for
    responses; then the number of features is not zero and there are as
    many label blocks as feature blocks, otherwise there is no label
    block. *)
Theorem loaded_slice_shape (decl : declarations) (this : DatasetFromCsv.t)
    (path : string) (ty : NumericTableType) (w w' : world) (s : DataSlice.t) :
  0 <= DatasetFromCsv.num_blocks_ this ->
  DatasetFromCsv.string_empty path = false ->
  DatasetFromCsv.load_slice decl this path ty w = (w', Ok s) ->
  can_open_file w path = true
  /\ ty <> OtherNumericTable
  /\ csv_loaded w' = path :: csv_loaded w
  /\ DataSlice.empty s = false
  /\ 1 <= DatasetFromCsv.num_blocks_ this
  /\ Z.of_nat (length (DataSlice.x_blocks_ s)) = DatasetFromCsv.num_blocks_ this
  /\ DataSlice.labeled_ s
     = DatasetFromCsv.labeled_ this && (0 <? DatasetFromCsv.num_responses_ this)
  /\ (if DataSlice.labeled_ s
      then length (DataSlice.y_blocks_ s) = length (DataSlice.x_blocks_ s)
           /\ DatasetFromCsv.num_features_ this <> 0
      else DataSlice.y_blocks_ s = []).
Proof. apply load_slice_ok_inv. Qed.

Lemma load_slice_presence (decl : declarations) (this : DatasetFromCsv.t)
    (path : string) (ty : NumericTableType) (w w' : world) (s : DataSlice.t) :
  0 <= DatasetFromCsv.num_blocks_ this ->
  DatasetFromCsv.load_slice decl this path ty w = (w', Ok s) ->
  DataSlice.empty s = DatasetFromCsv.string_empty path
  /\ csv_loaded w'
     = (if DatasetFromCsv.string_empty path then [] else [path]) ++ csv_loaded w.
Proof.
  intros Hn H. destruct (DatasetFromCsv.string_empty path) eqn:Hpath.
  - unfold DatasetFromCsv.load_slice in H. rewrite Hpath in H.
    injection H as <- <-. split; [apply empty_make_empty | reflexivity].
  - apply load_slice_ok_inv in H as (_ & _ & Hcsv & Hempty & _);
      [| exact Hn | exact Hpath].
    now split.
Qed.

Lemma loaded_slice_shape_witness :
  exists w' s,
    DatasetFromCsv.load_slice example_declarations
      (DatasetFromCsv.mk "" "train.csv" "" "" 3 1 2 0 true "")
      "train.csv" SyclHomogenNumericTableFloat (csv_world 5)
    = (w', Ok s)
    /\ csv_loaded w' = ["train.csv"]
    /\ Z.of_nat (length (DataSlice.x_blocks_ s)) = 2
    /\ DataSlice.labeled_ s = true
    /\ length (DataSlice.y_blocks_ s) = length (DataSlice.x_blocks_ s).
Proof.
  pose (w := csv_world 5).
  pose (this := DatasetFromCsv.mk "" "train.csv" "" "" 3 1 2 0 true "").
  assert (Hrun : DatasetFromCsv.load_slice example_declarations this "train.csv"
                   SyclHomogenNumericTableFloat w
                 = (fst (DatasetFromCsv.load_slice example_declarations this "train.csv"
                           SyclHomogenNumericTableFloat w),
                    Ok (DataSlice.mk [Some 2%nat; Some 4%nat] [Some 3%nat; Some 5%nat]
                          true)))
    by (apply run_result; vm_compute; reflexivity).
  destruct (loaded_slice_shape example_declarations this "train.csv"
              SyclHomogenNumericTableFloat w _ _ ltac:(cbn; lia) eq_refl Hrun)
    as (_ & _ & Hcsv & _ & _ & Hlen & Hlab & Hy).
  eexists _, _. split; [exact Hrun |]. split; [exact Hcsv |].
  split; [exact Hlen |]. split; [exact Hlab |].
  cbn [DataSlice.labeled_] in Hy. exact (proj1 Hy).
Defined.

(** X16. The dataset [load] returns carries the three counts of the
    builder; a role has a slice exactly when its path is set
    ([has_train()], [has_test()], [has_full()], and [index()] does not
    throw); and the files of the paths that are set were read once
    each, in the order train, test, full, index. *)
Theorem loaded_dataset_presence (decl : declarations) (this : DatasetFromCsv.t)
    (ty : NumericTableType) (w w' : world) (d : Dataset.t) :
  0 <= DatasetFromCsv.num_blocks_ this ->
  DatasetFromCsv.load decl this ty w = (w', Ok d) ->
  (Dataset.num_features_ d = DatasetFromCsv.num_features_ this
   /\ Dataset.num_responses_ d = DatasetFromCsv.num_responses_ this
   /\ Dataset.num_tries_ d = DatasetFromCsv.num_tries_ this)
  /\ (Dataset.has_train d
      = negb (DatasetFromCsv.string_empty (DatasetFromCsv.path_to_train_ this))
      /\ Dataset.has_test d
         = negb (DatasetFromCsv.string_empty (DatasetFromCsv.path_to_test_ this))
      /\ Dataset.has_full d
         = negb (DatasetFromCsv.string_empty (DatasetFromCsv.path_to_full_ this))
      /\ (Dataset.index d = Ok (Dataset.index_slice_ d)
          <-> DatasetFromCsv.string_empty (DatasetFromCsv.path_to_index_ this) = false))
  /\ csv_loaded w'
     = filter (fun path => DatasetFromCsv.string_empty path = false)
         [ DatasetFromCsv.path_to_index_ this; DatasetFromCsv.path_to_full_ this;
           DatasetFromCsv.path_to_test_ this; DatasetFromCsv.path_to_train_ this ]
       ++ csv_loaded w.
Proof.
  intros Hn Hload. split.
  { unfold DatasetFromCsv.load in Hload.
    apply bind_ok in Hload as (w1 & s1 & _ & H).
    apply bind_ok in H as (w2 & s2 & _ & H).
    apply bind_ok in H as (w3 & s3 & _ & H).
    apply bind_ok in H as (w4 & s4 & _ & H).
    injection H as _ <-. repeat split. }
  apply load_ok in Hload as (w1 & w2 & w3 & H1 & H2 & H3 & H4).
  apply load_slice_presence in H1 as [E1 C1]; [| exact Hn].
  apply load_slice_presence in H2 as [E2 C2]; [| exact Hn].
  apply load_slice_presence in H3 as [E3 C3]; [| exact Hn].
  apply load_slice_presence in H4 as [E4 C4]; [| exact Hn].
  split.
  { unfold Dataset.has_train, Dataset.has_test, Dataset.has_full, Dataset.index.
    rewrite E1, E2, E3, E4.
    split; [reflexivity |]. split; [reflexivity |]. split; [reflexivity |].
    destruct (DatasetFromCsv.string_empty (DatasetFromCsv.path_to_index_ this));
      split; congruence. }
  rewrite C4, C3, C2, C1.
  destruct (DatasetFromCsv.string_empty (DatasetFromCsv.path_to_index_ this)) eqn:P4,
           (DatasetFromCsv.string_empty (DatasetFromCsv.path_to_full_ this)) eqn:P3,
           (DatasetFromCsv.string_empty (DatasetFromCsv.path_to_test_ this)) eqn:P2,
           (DatasetFromCsv.string_empty (DatasetFromCsv.path_to_train_ this)) eqn:P1;
    rewrite ?filter_cons, ?filter_nil;
    repeat (rewrite ?decide_True by assumption;
            rewrite ?decide_False by congruence);
    reflexivity.
Qed.

Lemma loaded_dataset_presence_witness :
  exists w' d,
    DatasetFromCsv.load example_declarations
      (DatasetFromCsv.mk "full.csv" "train.csv" "" "" 3 1 2 7 true "")
      SyclHomogenNumericTableFloat (csv_world 5)
    = (w', Ok d)
    /\ Dataset.num_tries_ d = 7
    /\ Dataset.has_train d = true
    /\ Dataset.has_test d = false
    /\ csv_loaded w' = ["full.csv"; "train.csv"].
Proof.
  pose (w := csv_world 5).
  pose (this := DatasetFromCsv.mk "full.csv" "train.csv" "" "" 3 1 2 7 true "").
  destruct (DatasetFromCsv.load example_declarations this
              SyclHomogenNumericTableFloat w) as [w' [d | e |]] eqn:Hrun.
  - destruct (loaded_dataset_presence example_declarations this
                SyclHomogenNumericTableFloat w w' d ltac:(cbn; lia) Hrun)
      as ((_ & _ & Htries) & (Htrain & Htest & _) & Hcsv).
    exists w', d. split; [exact Hrun |]. split; [exact Htries |].
    split; [exact Htrain |]. split; [exact Htest | exact Hcsv].
  - exfalso.
    assert (H : snd (DatasetFromCsv.load example_declarations this
                       SyclHomogenNumericTableFloat w) = @Throw Dataset.t e)
      by now rewrite Hrun.
    vm_compute in H. discriminate H.
  - exfalso.
    assert (H : snd (DatasetFromCsv.load example_declarations this
                       SyclHomogenNumericTableFloat w) = @Undefined Dataset.t)
      by now rewrite Hrun.
    vm_compute in H. discriminate H.
Defined.


(** X21. On a labeled slice that was built from a feature table and a
    label table, [xy_blocks(i)] returns for every block index in range
    the merged view of the two tables that [x_block(i)] and
    [y_block(i)] return.  (For one block the feature table is not
    null.) *)
Theorem labeled_blocks_merge (x : option nat) (hy : nat) (num_blocks : Z)
    (ty : NumericTableType) (w w' : world) (s : DataSlice.t) :
  0 <= num_blocks ->
  (num_blocks = 1 -> x <> None) ->
  DataSlice.make_xy x (Some hy) num_blocks ty w = (w', Ok s) ->
  forall i, 0 <= i < num_blocks ->
    exists bx by_,
      DataSlice.x_block s i = Ok (Some bx)
      /\ DataSlice.y_block s i = Ok (Some by_)
      /\ DataSlice.xy_blocks s i = Ok (mkMerged bx by_).
Proof.
  intros Hn Hx Hmake i Hi.
  assert (Hblocks : exists bx by_,
            DataSlice.x_blocks_ s !! Z.to_nat i = Some (Some bx)
            /\ DataSlice.y_blocks_ s !! Z.to_nat i = Some (Some by_)).
  { destruct (Z.eq_dec num_blocks 1) as [-> | H1].
    - destruct x as [hx |]; [| now destruct Hx].
      replace i with 0 by lia. injection Hmake as _ <-. now exists hx, hy.
    - unfold DataSlice.make_xy in Hmake.
      apply initialize_ok_inv in Hmake as (_ & (_ & _ & Hbx & Hby) & _); cycle 1.
      { exact H1. } { exact Hn. } { apply length_replicate. }
      { intros _. apply length_replicate. }
      destruct (Hbx (Z.to_nat i) ltac:(lia)) as (bx & Hlx & _).
      destruct Hby as [_ Hby]; [reflexivity |].
      destruct (Hby (Z.to_nat i) ltac:(lia)) as (by_ & Hly & _).
      now exists bx, by_. }
  destruct Hblocks as (bx & by_ & Hlx & Hly). exists bx, by_.
  split; [now apply x_block_of_lookup |]. split; [now apply y_block_of_lookup |].
  unfold DataSlice.xy_blocks.
  now rewrite (vec_at_lookup _ _ _ Hlx), (vec_at_lookup _ _ _ Hly).
Qed.

Lemma labeled_blocks_merge_witness :
  exists bx by_,
    DataSlice.xy_blocks
      (DataSlice.mk [Some 2%nat; Some 4%nat] [Some 3%nat; Some 5%nat] true) 1
    = Ok (mkMerged bx by_).
Proof.
  pose (w := world_of [column SyclHomogenNumericTableDouble [1; 2; 3; 4; 5];
                       column SyclHomogenNumericTableDouble [0; 1; 0; 1; 1]] no_file).
  assert (Hrun : DataSlice.make_xy (Some 0%nat) (Some 1%nat) 2
                   SyclHomogenNumericTableDouble w
                 = (fst (DataSlice.make_xy (Some 0%nat) (Some 1%nat) 2
                           SyclHomogenNumericTableDouble w),
                    Ok (DataSlice.mk [Some 2%nat; Some 4%nat] [Some 3%nat; Some 5%nat]
                          true)))
    by (apply run_result; vm_compute; reflexivity).
  destruct (labeled_blocks_merge (Some 0%nat) 1%nat 2 SyclHomogenNumericTableDouble w
              _ _ ltac:(lia) ltac:(lia) Hrun 1 ltac:(lia))
    as (bx & by_ & _ & _ & Hxy).
  now exists bx, by_.
Defined.
